(** * genqlient: the runtime transport, the upload packer and the
      generated decoding helpers, embedded in Rocq.

    The development follows the Go sources:
    - [graphql/client.go] ([MakeRequest], [findFiles],
      [createUploadFileRequest], [joinFilesMapKey], [createPostRequest],
      [createGetRequest]);
    - [graphql/option.go] and [graphql/upload.go];
    - [generate/unmarshal_helper.go.tmpl] (the [__unmarshal] helper stamped
      out for every interface or union type);
    - the generated snapshot [DefaultInputsWithForDirective.graphql.go]
      (the input type [InputWithDefaults]).

    Go strings and byte slices are byte strings, so both are [string] here.
    Functions of the Go standard library whose body is not part of the
    repository (the JSON text codec, [net/url], [net/http]) are section
    variables; what [encoding/json] does with struct tags is written out,
    because the generated code relies on it. *)

From Stdlib Require Import Ascii String DecimalString ZArith Lia.
From stdpp Require Import base option list strings gmap.

Set Warnings "-register-all".

Local Open Scope string_scope.
Local Open Scope list_scope.

(** ** Outcomes of Go calls

    A Go call returns normally, returns a non-nil [error], or panics. *)
Module Outcome.

Inductive outcome (E A : Type) : Type :=
| Ok (a : A)
| Err (e : E)
| Panic (msg : string).
Global Arguments Ok {E A} a.
Global Arguments Err {E A} e.
Global Arguments Panic {E A} msg.

#[global] Instance outcome_ret {E} : MRet (outcome E) := λ A a, Ok a.

#[global] Instance outcome_bind {E} : MBind (outcome E) := λ A B k m,
  match m with
  | Ok a => k a
  | Err e => Err e
  | Panic msg => Panic msg
  end.

Definition is_ok {E A} (m : outcome E A) : bool :=
  match m with Ok _ => true | _ => false end.

End Outcome.
Export Outcome.

(** [strconv.Itoa] on a non-negative index, and [%d] of [fmt.Sprintf]. *)
Definition Itoa (n : nat) : string := NilZero.string_of_uint (Nat.to_uint n).

(** ** JSON documents *)
Module Json.

Inductive json : Type :=
| JNull
| JBool (b : bool)
| JNum (z : Z)
| JStr (s : string)
| JArr (items : list json)
| JObj (members : list (string * json)).

(** The value stored under a key of an object, [None] when the key is not
    a member (or the document is not an object). *)
Fixpoint assoc (k : string) (ms : list (string * json)) : option json :=
  match ms with
  | [] => None
  | (k', v) :: rest => if String.eqb k k' then Some v else assoc k rest
  end.

Definition member (k : string) (j : json) : option json :=
  match j with
  | JObj ms => assoc k ms
  | _ => None
  end.

End Json.
Export Json.

(** ** The Go values reachable from [Request.Variables] *)
Module Reflect.

(** An [io.Reader].  [ExtReader id] is a reader object handed in by the
    caller; its state lives in the store and two [Upload]s may hold the same
    one.  [BytesReader s] is a [bytes.NewReader] created by the packer,
    holding its unread bytes; each one is referenced from a single place.
    [NilReader] is the nil interface. *)
Inductive Reader : Type :=
| NilReader
| ExtReader (id : nat)
| BytesReader (unread : string).

(** [graphql.Upload] *)
Record Upload : Type := mkUpload {
  FileName : string;
  Body : Reader;
}.

(** [reflect.StructField], reduced to what the client reads: the Go name and
    the value of the [json] key of the tag ([Tag.Get("json")]). *)
Record StructField : Type := mkField {
  Name : string;
  Tag : string;
}.

(** A valid [reflect.Value], by kind.  Struct fields are exported, as the
    generator emits them. *)
Inductive Value : Type :=
| VPtr (elem : option Value)
| VUpload (u : Upload)
| VStruct (fields : list (StructField * Value))
| VSlice (elems : option (list Value))
| VArray (elems : list Value)
| VString (s : string)
| VInt (z : Z)
| VBool (b : bool)
| VInterface (dyn : option Value).

(** [reflect.ValueOf(i)]: the zero [reflect.Value] ([None]) for a nil
    interface, the value itself otherwise. *)
Definition ValueOf (i : option Value) : option Value := i.

End Reflect.
Export Reflect.

(** ** [encoding/json]: marshalling of Go values *)
Module Marshal.

(** The name part of a [json] tag: what precedes the first comma. *)
Fixpoint tagName (tag : string) : string :=
  match tag with
  | EmptyString => EmptyString
  | String.String c rest =>
      if Ascii.eqb c ","%char then EmptyString else String.String c (tagName rest)
  end.

(** The options of a [json] tag: what follows the first comma. *)
Fixpoint tagOptions (tag : string) : string :=
  match tag with
  | EmptyString => EmptyString
  | String.String c rest => if Ascii.eqb c ","%char then rest else tagOptions rest
  end.

(** [tagOptions.Contains]: the comma-separated options include [opt]. *)
Fixpoint splitComma (cur : string) (s : string) : list string :=
  match s with
  | EmptyString => [cur]
  | String.String c rest =>
      if Ascii.eqb c ","%char then cur :: splitComma EmptyString rest
      else splitComma (cur +:+ String.String c EmptyString) rest
  end.

Definition Contains (opts : string) (opt : string) : bool :=
  if String.eqb opts "" then false
  else existsb (String.eqb opt) (splitComma "" opts).

(** [isEmptyValue]: what [omitempty] regards as empty. *)
Definition isEmptyValue (v : Value) : bool :=
  match v with
  | VPtr None | VInterface None => true
  | VPtr (Some _) | VInterface (Some _) => false
  | VSlice None => true
  | VSlice (Some l) | VArray l => Nat.eqb (length l) 0
  | VString s => String.eqb s ""
  | VInt z => Z.eqb z 0
  | VBool b => negb b
  | VUpload _ | VStruct _ => false
  end.

(** The key under which a struct field is written. *)
Definition wireKey (f : StructField) : string :=
  if String.eqb (tagName (Tag f)) "" then Name f else tagName (Tag f).

(** [json.Marshal] up to the text encoding.  [Upload] has a [MarshalJSON]
    method that writes [null]; a field tagged ["-"] is skipped; a field with
    the [omitempty] option is skipped when its value is empty. *)
Fixpoint toJSON (v : Value) : json :=
  match v with
  | VPtr None | VInterface None | VSlice None => JNull
  | VPtr (Some e) | VInterface (Some e) => toJSON e
  | VUpload _ => JNull
  | VStruct fields =>
      JObj ((fix members (fs : list (StructField * Value)) : list (string * json) :=
               match fs with
               | [] => []
               | (f, x) :: rest =>
                   if String.eqb (Tag f) "-" then members rest
                   else if Contains (tagOptions (Tag f)) "omitempty" && isEmptyValue x
                        then members rest
                        else (wireKey f, toJSON x) :: members rest
               end) fields)
  | VSlice (Some l) | VArray l => JArr (map toJSON l)
  | VString s => JStr s
  | VInt z => JNum z
  | VBool b => JBool b
  end.

End Marshal.
Export Marshal.

(** ** [net/http], [net/url] and [mime/multipart] as the client sees them *)
Module Http.

(** One part of a multipart body: the parameters of its
    [Content-Disposition: form-data] header, its [Content-Type] header when
    it has one, and its content. *)
Record Part : Type := mkPart {
  partName : string;
  partFilename : option string;
  partContentType : option string;
  partData : string;
}.

Inductive RequestBody : Type :=
| NoBody
| BytesBody (b : string)
| MultipartBody (parts : list Part).

(** [url.Values], with [Set] replacing every value of the key. *)
Definition Values : Type := list (string * list string).

Fixpoint Set_ (k v : string) (q : Values) : Values :=
  match q with
  | [] => [(k, [v])]
  | (k', vs) :: rest =>
      if String.eqb k k' then (k, [v]) :: rest else (k', vs) :: Set_ k v rest
  end.

(** The target of a request: an endpoint text handed to [http.NewRequest],
    or the URL rebuilt by [createGetRequest] from the parsed endpoint and
    the query parameters it has set. *)
Inductive Target (URL : Type) : Type :=
| RawTarget (endpoint : string)
| ParsedTarget (u : URL) (query : option Values).
Global Arguments RawTarget {URL} endpoint.
Global Arguments ParsedTarget {URL} u query.

(** [http.Header], with [Set] replacing the value of the key. *)
Definition Header : Type := list (string * string).

Fixpoint HeaderSet (k v : string) (h : Header) : Header :=
  match h with
  | [] => [(k, v)]
  | (k', v') :: rest =>
      if String.eqb k k' then (k, v) :: rest else (k', v') :: HeaderSet k v rest
  end.


(** A stream that is read once: the bytes still to come and the error, if
    any, that reading meets after them. *)
Record ReaderState : Type := mkReader {
  pending : string;
  failure : option string;
}.

(** What the client uses of the Go standard library. *)
Class GoLib : Type := {
  URL : Type;
  (** [url.Parse] *)
  url_Parse : string → outcome string URL;
  (** [URL.Query] *)
  url_Query : URL → Values;
  (** the error, if any, of [http.NewRequest] for a method and a target *)
  http_NewRequest_error : string → Target URL → option string;
  (** the text written by [json.Marshal] for a document *)
  json_Encode : json → string;
  (** [http.DetectContentType] *)
  DetectContentType : string → string;
  (** the boundary drawn by [multipart.NewWriter] *)
  boundary : string;
}.

(** [context.Context], by identity. *)
Definition Context : Type := nat.

Record HttpRequest `{GoLib} : Type := mkHttpRequest {
  reqMethod : string;
  reqTarget : Target URL;
  reqHeader : Header;
  reqBody : RequestBody;
  reqContext : option Context;
}.

Record HttpResponse : Type := mkHttpResponse {
  StatusCode : Z;
  Status : string;
  respBody : ReaderState;
}.

Definition MethodGet : string := "GET".
Definition MethodPost : string := "POST".
Definition StatusOK : Z := 200.

(** [http.NewRequest]: the header starts empty and no context is set. *)
Definition NewRequest `{GoLib} (method : string) (target : Target URL)
    (body : RequestBody) : outcome string HttpRequest :=
  match http_NewRequest_error method target with
  | Some e => Err e
  | None => Ok (mkHttpRequest _ method target [] body None)
  end.

(** [multipart.Writer.WriteField] *)
Definition WriteField (fieldname value : string) : Part :=
  mkPart fieldname None None value.

(** [multipart.Writer.FormDataContentType] *)
Definition FormDataContentType `{GoLib} : string :=
  "multipart/form-data; boundary=" +:+ boundary.

End Http.
Export Http.

(** ** [strings]: the two functions [createGetRequest] calls *)
Module Strings.

(** The white-space runes of [unicode.IsSpace], as UTF-8 byte sequences:
    tab to carriage return, space, U+0085, U+00A0, U+1680, U+2000 to
    U+200A, U+2028, U+2029, U+202F, U+205F and U+3000. *)
Definition bytes (codes : list nat) : string :=
  string_of_list_ascii (map ascii_of_nat codes).

Definition spaces : list string :=
  map bytes
    [ [9]; [10]; [11]; [12]; [13]; [32]; [194; 133]; [194; 160];
      [225; 154; 128];
      [226; 128; 128]; [226; 128; 129]; [226; 128; 130]; [226; 128; 131];
      [226; 128; 132]; [226; 128; 133]; [226; 128; 134]; [226; 128; 135];
      [226; 128; 136]; [226; 128; 137]; [226; 128; 138];
      [226; 128; 168]; [226; 128; 169]; [226; 128; 175];
      [226; 129; 159]; [227; 128; 128] ].

(** [Some rest] when [s] is [p] followed by [rest]. *)
Fixpoint stripPrefix (p s : string) : option string :=
  match p, s with
  | EmptyString, _ => Some s
  | String.String a p', String.String b s' =>
      if Ascii.eqb a b then stripPrefix p' s' else None
  | String.String _ _, EmptyString => None
  end.

Fixpoint stripAny (ps : list string) (s : string) : option string :=
  match ps with
  | [] => None
  | p :: rest =>
      match stripPrefix p s with
      | Some r => Some r
      | None => stripAny rest s
      end
  end.

Fixpoint trimLeading (ps : list string) (fuel : nat) (s : string) : string :=
  match fuel with
  | 0 => s
  | S fuel' =>
      match stripAny ps s with
      | Some r => trimLeading ps fuel' r
      | None => s
      end
  end.

Definition TrimLeft (s : string) : string :=
  trimLeading spaces (String.length s) s.

Definition TrimRight (s : string) : string :=
  String.rev (trimLeading (map String.rev spaces) (String.length s) (String.rev s)).

(** [strings.TrimSpace] *)
Definition TrimSpace (s : string) : string := TrimRight (TrimLeft s).

(** [strings.HasPrefix] *)
Definition HasPrefix (s p : string) : bool :=
  match stripPrefix p s with Some _ => true | None => false end.

(** [strings.Join] *)
Definition Join (elems : list string) (sep : string) : string :=
  String.concat sep elems.

End Strings.
Export Strings.

(** ** Package [graphql] *)
Module Graphql.

(** [gqlerror.Error], reduced to its message. *)
Record gqlerror : Type := mkGqlError { Message : string }.

(** [graphql.Request] *)
Record Request : Type := mkRequest {
  Query : string;
  Variables : option Value;
  OpName : string;
  UploadFile : bool;
}.

(** [graphql.Response].  [Data] is the content of the object the caller's
    pointer refers to. *)
Record Response : Type := mkResponse {
  Data : json;
  Extensions : option json;
  Errors : list gqlerror;
}.

(** [graphql.Option] and [MultipartUploadOption] *)
Definition Option : Type := Request → Request.

Definition withUploadFile (b : bool) (r : Request) : Request :=
  mkRequest (Query r) (Variables r) (OpName r) b.

Definition MultipartUploadOption : Option := withUploadFile true.

(** The errors [MakeRequest] returns.
    - [UnsupportedOperation]: [errors.New("client does not support mutations")];
    - [TransportError status body]:
      [fmt.Errorf("returned error %v: %s", httpResp.Status, respBody)];
    - [GraphQLErrorList errs]: [resp.Errors] returned as the error;
    - [CreatingRequestError]: ["error creating request: %w"];
    - [ReadingFileError]: ["error reading file: %w"];
    - the others are errors of the library or of the [Doer], returned as
      they are. *)
Inductive error : Type :=
| UnsupportedOperation
| TransportError (status : string) (body : string)
| GraphQLErrorList (errs : list gqlerror)
| CreatingRequestError (cause : string)
| ReadingFileError (cause : string)
| URLError (cause : string)
| NewRequestError (cause : string)
| DoError (cause : string)
| DecodeError (cause : string).

(** The request as [encoding/json] sees it: the struct with its tags.
    [UploadFile] carries no tag. *)
Definition Request_Value (req : Request) : Value :=
  VStruct
    [ (mkField "Query" "query", VString (Query req));
      (mkField "Variables" "variables,omitempty", VInterface (Variables req));
      (mkField "OpName" "operationName", VString (OpName req));
      (mkField "UploadFile" "", VBool (UploadFile req)) ].

(** [json.Marshal(req)]; it has no error on the values of [Value]. *)
Definition Marshal_Request `{GoLib} (req : Request) : string :=
  json_Encode (toJSON (Request_Value req)).

(** *** The readers of the caller *)

Abbreviation Store := (gmap nat ReaderState).

(** [io.ReadAll] on a stream: everything pending, and the error met. *)
Definition drain (st : ReaderState) : string * option string * ReaderState :=
  (pending st, failure st, mkReader "" (failure st)).

(** [io.ReadAll(r)]: the bytes read, the error, and the store afterwards.
    Calling it on a nil reader panics. *)
Definition ReadAll (σ : Store) (r : Reader)
    : outcome error (string * option string * Store) :=
  match r with
  | NilReader => Panic "invalid memory address or nil pointer dereference"
  | BytesReader unread => Ok (unread, None, σ)
  | ExtReader id =>
      match σ !! id with
      | None => Panic "invalid memory address or nil pointer dereference"
      | Some st =>
          let '(data, err, st') := drain st in
          Ok (data, err, <[id := st']> σ)
      end
  end.

(** *** [findFiles] *)

Record fileVariable : Type := mkFileVariable {
  mapKey : string;
  file : Upload;
}.

(** The body of [findFiles] on a valid value.  [derefd] tells that the
    pointer test at the top of the function has been passed, so that a
    pointer met after it is of a kind the [switch] ignores. *)
Fixpoint findFilesIn (derefd : bool) (parentKey : string) (v : Value)
    : list fileVariable :=
  match v with
  | VPtr None => []
  | VPtr (Some e) => if derefd then [] else findFilesIn true parentKey e
  | VUpload u => [mkFileVariable parentKey u]
  | VStruct fields =>
      (fix each (fs : list (StructField * Value)) : list fileVariable :=
         match fs with
         | [] => []
         | (f, field) :: rest =>
             let fieldName :=
               if negb (String.eqb (Tag f) "") && negb (String.eqb (Tag f) "-")
               then Tag f else Name f in
             (findFilesIn false (parentKey +:+ "." +:+ fieldName) field
                ++ each rest)%list
         end) fields
  | VSlice (Some elems) | VArray elems =>
      (fix each (i : nat) (es : list Value) : list fileVariable :=
         match es with
         | [] => []
         | elem :: rest =>
             (findFilesIn false (parentKey +:+ "." +:+ Itoa i) elem
                ++ each (S i) rest)%list
         end) 0 elems
  | VSlice None | VString _ | VInt _ | VBool _ | VInterface _ => []
  end.

(** [findFiles(parentKey, v)].  On the zero [reflect.Value], [v.Kind()] is
    [Invalid] and [v.Type()] panics. *)
Definition findFiles (parentKey : string) (v : option Value)
    : outcome error (list fileVariable) :=
  match v with
  | None => Panic "reflect: call of reflect.Value.Type on zero Value"
  | Some v => Ok (findFilesIn false parentKey v)
  end.

(** *** [createUploadFileRequest] *)

Definition setBody (fv : fileVariable) (r : Reader) : fileVariable :=
  mkFileVariable (mapKey fv) (mkUpload (FileName (file fv)) r).

(** The inner loop of the grouping: [file] is compared with the first file
    of every group in turn.  The result is the store, [file] and the groups
    as the loop leaves them, and [foundDuplicated].  Both files are objects
    behind pointers, so the readers assigned to their [Body] stay. *)
Fixpoint scanGroups (σ : Store) (file : fileVariable)
    (filesGroup : list (list fileVariable))
    : outcome error (Store * fileVariable * list (list fileVariable) * bool) :=
  match filesGroup with
  | [] => Ok (σ, file, [], false)
  | fileGroup :: rest =>
      match fileGroup with
      | [] => Panic "index out of range [0] with length 0"
      | file2 :: others =>
          if String.eqb (FileName (Graphql.file file)) (FileName (Graphql.file file2)) then
            '(f1, err1, σ1) ← ReadAll σ (Body (Graphql.file file));
            match err1 with
            | Some e => Err (ReadingFileError e)
            | None =>
                '(f2, err2, σ2) ← ReadAll σ1 (Body (Graphql.file file2));
                match err2 with
                | Some e => Err (ReadingFileError e)
                | None =>
                    let file' := setBody file (BytesReader f1) in
                    let file2' := setBody file2 (BytesReader f2) in
                    if String.eqb f1 f2 then
                      Ok (σ2, file', (file2' :: others ++ [file']) :: rest, true)
                    else
                      '(σ3, file'', rest', found) ← scanGroups σ2 file' rest;
                      Ok (σ3, file'', (file2' :: others) :: rest', found)
                end
            end
          else
            '(σ3, file'', rest', found) ← scanGroups σ file rest;
            Ok (σ3, file'', fileGroup :: rest', found)
      end
  end.

(** The outer loop: every file joins the group [scanGroups] found for it,
    or opens a new group at the end. *)
Fixpoint groupFiles (σ : Store) (fileVariables : list fileVariable)
    (filesGroup : list (list fileVariable))
    : outcome error (Store * list (list fileVariable)) :=
  match fileVariables with
  | [] => Ok (σ, filesGroup)
  | file :: rest =>
      '(σ', file', filesGroup', foundDuplicated) ← scanGroups σ file filesGroup;
      groupFiles σ' rest
        (if foundDuplicated : bool then filesGroup' else filesGroup' ++ [[file']])
  end.

(** The double quote of the format strings. *)
Definition dquote : string := String.String (ascii_of_nat 34) EmptyString.

(** [joinFilesMapKey] *)
Definition joinFilesMapKey (files : list fileVariable) : string :=
  Join (map (λ v, dquote +:+ mapKey v +:+ dquote) files) ",".

(** The text of the [map] field. *)
Definition mapData (filesGroup : list (list fileVariable)) : string :=
  if decide (0 < length filesGroup) then
    "{" +:+ Join (imap (λ i files,
                    dquote +:+ Itoa i +:+ dquote +:+ ":[" +:+ joinFilesMapKey files +:+ "]")
                  filesGroup) "," +:+ "}"
  else "".

(** The last loop: one part per group, read from the first file of the
    group. *)
Fixpoint writeFiles `{GoLib} (σ : Store) (i : nat)
    (filesGroup : list (list fileVariable)) : outcome error (list Part) :=
  match filesGroup with
  | [] => Ok []
  | file :: rest =>
      match file with
      | [] => Panic "index out of range [0] with length 0"
      | file0 :: _ =>
          let fileName := TrimSpace (FileName (Graphql.file file0)) in
          '(b, err, σ') ← ReadAll σ (Body (Graphql.file file0));
          match err with
          | Some e => Err (ReadingFileError e)
          | None =>
              let part :=
                mkPart (Itoa i)
                  (if String.eqb fileName "" then None else Some fileName)
                  (Some (DetectContentType b)) b in
              parts ← writeFiles σ' (S i) rest;
              Ok (part :: parts)
          end
      end
  end.

Record client `{GoLib} (D : Type) : Type := mkClient {
  httpClient : D;
  endpoint : string;
  method : string;
}.
Global Arguments mkClient {_ D} _ _ _.
Global Arguments httpClient {_ D} _.
Global Arguments endpoint {_ D} _.
Global Arguments method {_ D} _.

Section Requests.
Context `{GoLib} {D : Type}.

(** [r.Header.Set(k, v)], [r.Body = b] and [r.WithContext(ctx)]. *)
Definition setHeader (k v : string) (r : HttpRequest) : HttpRequest :=
  mkHttpRequest _ (reqMethod r) (reqTarget r) (HeaderSet k v (reqHeader r))
    (reqBody r) (reqContext r).

Definition setRequestBody (b : RequestBody) (r : HttpRequest) : HttpRequest :=
  mkHttpRequest _ (reqMethod r) (reqTarget r) (reqHeader r) b (reqContext r).

Definition WithContext (ctx : Context) (r : HttpRequest) : HttpRequest :=
  mkHttpRequest _ (reqMethod r) (reqTarget r) (reqHeader r) (reqBody r) (Some ctx).

(** [createUploadFileRequest]: the request is created first, then the
    [operations] field, the files found in the variables, their groups, the
    [map] field and one part per group are written, in that order.  The
    writer writes to a buffer in memory, so its own errors do not occur; the
    error of [json.Marshal] is dropped by the code. *)
Definition createUploadFileRequest (c : client D) (req : Request) (σ : Store)
    : outcome error HttpRequest :=
  match NewRequest MethodPost (RawTarget (endpoint c)) NoBody with
  | Err e => Err (CreatingRequestError e)
  | Panic msg => Panic msg
  | Ok httpRequest =>
      let operations := WriteField "operations" (Marshal_Request req) in
      fileVariables ← findFiles "variables" (ValueOf (Variables req));
      '(σ', filesGroup) ← groupFiles σ fileVariables [];
      let map_ := WriteField "map" (mapData filesGroup) in
      files ← writeFiles σ' 0 filesGroup;
      Ok (setHeader "Content-Type" FormDataContentType
            (setRequestBody (MultipartBody (operations :: map_ :: files))
               httpRequest))
  end.

(** [createPostRequest] *)
Definition createPostRequest (c : client D) (req : Request)
    : outcome error HttpRequest :=
  match NewRequest (method c) (RawTarget (endpoint c))
          (BytesBody (Marshal_Request req)) with
  | Err e => Err (NewRequestError e)
  | Panic msg => Panic msg
  | Ok httpReq => Ok httpReq
  end.

(** [createGetRequest]: the endpoint is parsed before the query text is
    looked at; the three parameters are set when they are not empty. *)
Definition createGetRequest (c : client D) (req : Request)
    : outcome error HttpRequest :=
  match url_Parse (endpoint c) with
  | Err e => Err (URLError e)
  | Panic msg => Panic msg
  | Ok parsedURL =>
      let queryParams := url_Query parsedURL in
      if negb (String.eqb (Query req) "")
         && HasPrefix (TrimSpace (Query req)) "mutation"
      then Err UnsupportedOperation
      else
        let '(queryParams, queryUpdated) :=
          if negb (String.eqb (Query req) "")
          then (Set_ "query" (Query req) queryParams, true)
          else (queryParams, false) in
        let '(queryParams, queryUpdated) :=
          if negb (String.eqb (OpName req) "")
          then (Set_ "operationName" (OpName req) queryParams, true)
          else (queryParams, queryUpdated) in
        let '(queryParams, queryUpdated) :=
          match Variables req with
          | Some v => (Set_ "variables" (json_Encode (toJSON v)) queryParams, true)
          | None => (queryParams, queryUpdated)
          end in
        let target :=
          ParsedTarget parsedURL
            (if queryUpdated : bool then Some queryParams else None) in
        match NewRequest (method c) target NoBody with
        | Err e => Err (NewRequestError e)
        | Panic msg => Panic msg
        | Ok httpReq => Ok httpReq
        end
  end.

End Requests.

(** *** The [Doer] and [MakeRequest] *)

(** [graphql.Doer]: the method [Do], with the text of its error. *)
Class Doer `{GoLib} (D : Type) : Type :=
  Do : D → HttpRequest → outcome string HttpResponse.

(** [json.NewDecoder(body).Decode(resp)]: the response object as the
    decoder leaves it, and its error. *)
Class Decoder : Type :=
  DecodeResponse : ReaderState → Response → Response * option string.

(** What a call of [MakeRequest] leaves behind: the value it returns
    ([Ok tt] for a nil error), the response object of the caller, and the
    requests handed to [Do]. *)
Record Call `{GoLib} : Type := mkCall {
  returned : outcome error unit;
  response : Response;
  sent : list HttpRequest;
}.

Section MakeRequest.
Context `{GoLib} `{!Decoder} {D : Type} `{!Doer D}.

(** The first statement of [MakeRequest]: the request, by method and flag. *)
Definition buildRequest (c : client D) (req : Request) (σ : Store)
    : outcome error HttpRequest :=
  if String.eqb (method c) MethodGet then createGetRequest c req
  else if UploadFile req then createUploadFileRequest c req σ
  else createPostRequest c req.

(** The statements between building the request and calling [Do]: the
    JSON content type, unless a multipart body was built, and the context. *)
Definition prepareRequest (c : client D) (ctx : option Context) (req : Request)
    (httpReq : HttpRequest) : HttpRequest :=
  let httpReq :=
    if negb (UploadFile req) || String.eqb (method c) MethodGet
    then setHeader "Content-Type" "application/json" httpReq
    else httpReq in
  match ctx with
  | Some ctx => WithContext ctx httpReq
  | None => httpReq
  end.

(** The statements after [Do] has returned a response: the value returned
    and the response object of the caller. *)
Definition handleResponse (httpResp : HttpResponse) (resp : Response)
    : outcome error unit * Response :=
  if negb (Z.eqb (StatusCode httpResp) StatusOK) then
    let '(data, err, _) := drain (respBody httpResp) in
    let respBody :=
      match err with
      | Some e => "<unreadable: " +:+ e +:+ ">"
      | None => data
      end in
    (Err (TransportError (Status httpResp) respBody), resp)
  else
    let '(resp', err) := DecodeResponse (respBody httpResp) resp in
    match err with
    | Some e => (Err (DecodeError e), resp')
    | None =>
        if decide (0 < length (Errors resp'))
        then (Err (GraphQLErrorList (Errors resp')), resp')
        else (Ok tt, resp')
    end.

Definition MakeRequest (c : client D) (ctx : option Context) (req : Request)
    (resp : Response) (σ : Store) : Call :=
  match buildRequest c req σ with
  | Err e => mkCall _ (Err e) resp []
  | Panic msg => mkCall _ (Panic msg) resp []
  | Ok httpReq =>
      let httpReq := prepareRequest c ctx req httpReq in
      match Do (httpClient c) httpReq with
      | Err e => mkCall _ (Err (DoError e)) resp [httpReq]
      | Panic msg => mkCall _ (Panic msg) resp [httpReq]
      | Ok httpResp =>
          let '(err, resp') := handleResponse httpResp resp in
          mkCall _ err resp' [httpReq]
      end
  end.

(** [newClient], [NewClient] and [NewClientUsingGet]; a nil [httpClient]
    stands for [http.DefaultClient]. *)
Definition newClient (DefaultClient : D) (endpoint : string)
    (httpClient : option D) (method : string) : client D :=
  mkClient (default DefaultClient httpClient) endpoint method.

Definition NewClient (DefaultClient : D) (endpoint : string)
    (httpClient : option D) : client D :=
  newClient DefaultClient endpoint httpClient MethodPost.

Definition NewClientUsingGet (DefaultClient : D) (endpoint : string)
    (httpClient : option D) : client D :=
  newClient DefaultClient endpoint httpClient MethodGet.

End MakeRequest.

End Graphql.
Export Graphql.

(** ** The helper of [generate/unmarshal_helper.go.tmpl] *)
Module UnmarshalHelper.

(** What the template reads of an interface or union type and of each of
    its implementations. *)
Record Implementation : Type := mkImplementation {
  implGraphQLName : string;
  implGoName : string;
}.

Record InterfaceType : Type := mkInterfaceType {
  GoName : string;
  GraphQLName : string;
  Implementations : list Implementation;
}.

(** The errors of the helper.
    - [MissingDiscriminator T]: ["Response was missing T.__typename"];
    - [UnknownVariant T tn]: [`Unexpected concrete type for T: "tn"`];
    - [JSONError]: an error of [json.Unmarshal], returned as it is. *)
Inductive decodeError : Type :=
| MissingDiscriminator (graphQLName : string)
| UnknownVariant (goName : string) (typeName : string)
| JSONError (cause : string).

(** What the helper uses of [encoding/json] beyond this file: the reading
    of a text as a document, and the decoding of a text into a fresh struct
    of a generated type, [V] being the values of those structs. *)
Class JsonText (V : Type) : Type := {
  (** the document a text spells, or the syntax error *)
  json_Parse : string → outcome string json;
  (** [x := new(T); err := json.Unmarshal(m, x)], for the Go type named [T] *)
  UnmarshalNew : string → string → V * option string;
}.

(** ASCII upper case, as the key matching of [encoding/json] folds it. *)
Definition upper (c : ascii) : ascii :=
  let n := nat_of_ascii c in
  if (97 <=? n)%nat && (n <=? 122)%nat then ascii_of_nat (n - 32) else c.

Fixpoint foldName (s : string) : string :=
  match s with
  | EmptyString => EmptyString
  | String.String c rest => String.String (upper c) (foldName rest)
  end.

(** A key of the object names the field tagged [__typename]: the same name,
    or the same up to case. *)
Definition isTypeNameKey (k : string) : bool :=
  String.eqb (foldName k) (foldName "__typename").

(** [json.Unmarshal] of an object into [struct { TypeName string }]: every
    member naming the field is decoded in turn, a string is stored, [null]
    changes nothing, anything else is a type error, of which the first is
    returned once the object is read. *)
Fixpoint decodeTypeName (ms : list (string * json)) (TypeName : string)
    (saved : option string) : string * option string :=
  match ms with
  | [] => (TypeName, saved)
  | (k, x) :: rest =>
      if isTypeNameKey k then
        match x with
        | JStr s => decodeTypeName rest s saved
        | JNull => decodeTypeName rest TypeName saved
        | _ =>
            decodeTypeName rest TypeName
              (Some (default
                 "json: cannot unmarshal into Go struct field .__typename of type string"
                 saved))
        end
      else decodeTypeName rest TypeName saved
  end.

Section Helper.
Context {V : Type} `{!JsonText V}.

(** [var tn struct { TypeName string }; err := json.Unmarshal(m, &tn)] *)
Definition UnmarshalTypeName (m : string) : outcome string string :=
  j ← json_Parse m;
  match j with
  | JObj ms =>
      let '(TypeName, saved) := decodeTypeName ms "" None in
      match saved with
      | Some e => Err e
      | None => Ok TypeName
      end
  | JNull => Ok ""
  | _ => Err "json: cannot unmarshal into Go value of type struct"
  end.

(** The [case] of the [switch] that a type name selects among those of the
    implementations, which come first. *)
Definition selectCase (T : InterfaceType) (TypeName : string)
    : option Implementation :=
  List.find (λ i, String.eqb TypeName (implGraphQLName i)) (Implementations T).

(** [__unmarshalT(v, m)]: the content of [*v] afterwards, a value of an
    implementation under its Go name or nil, and the error returned. *)
Definition __unmarshal (T : InterfaceType) (v : option (string * V)) (m : string)
    : option (string * V) * outcome decodeError unit :=
  if String.eqb m "null" then (v, Ok tt)
  else
    match UnmarshalTypeName m with
    | Err e => (v, Err (JSONError e))
    | Panic msg => (v, Panic msg)
    | Ok TypeName =>
        match selectCase T TypeName with
        | Some impl =>
            let '(x, err) := UnmarshalNew (implGoName impl) m in
            (Some (implGoName impl, x),
             match err with
             | Some e => Err (JSONError e)
             | None => Ok tt
             end)
        | None =>
            if String.eqb TypeName ""
            then (v, Err (MissingDiscriminator (GraphQLName T)))
            else (v, Err (UnknownVariant (GoName T) TypeName))
        end
    end.

End Helper.

End UnmarshalHelper.
Export UnmarshalHelper.

(** ** The generated input type of the snapshot
    [DefaultInputsWithForDirective.graphql.go] *)
Module Snapshot.

Record InputWithDefaults : Type := mkInputWithDefaults {
  Field : string;
  NullableField : string;
}.

(** [GetField] and [GetNullableField] *)
Definition GetField (v : InputWithDefaults) : string := Field v.
Definition GetNullableField (v : InputWithDefaults) : string := NullableField v.

(** The struct with its tags. *)
Definition InputWithDefaults_Value (v : InputWithDefaults) : Value :=
  VStruct
    [ (mkField "Field" "field,omitempty", VString (Field v));
      (mkField "NullableField" "nullableField,omitempty",
       VString (NullableField v)) ].

Record __DefaultInputsInput : Type := mk__DefaultInputsInput {
  Input : InputWithDefaults;
}.

Definition GetInput (v : __DefaultInputsInput) : InputWithDefaults := Input v.

Definition __DefaultInputsInput_Value (v : __DefaultInputsInput) : Value :=
  VStruct [ (mkField "Input" "input", InputWithDefaults_Value (Input v)) ].

(** The variables of the request built by [DefaultInputs]:
    [&__DefaultInputsInput{Input: input}]. *)
Definition DefaultInputs_Variables (input : InputWithDefaults) : option Value :=
  Some (VPtr (Some (__DefaultInputsInput_Value (mk__DefaultInputsInput input)))).

End Snapshot.
Export Snapshot.

(** ** A reference instance of the library interfaces

    The closed examples below run the model on concrete requests.  They use
    this instance: a compact JSON writer and reader over [json], the first
    checks of [url.Parse], a [Doer] that answers every request with a canned
    outcome, and a response decoder built on the reader. *)
Module Reference.

Definition chr (n : nat) : string := String.String (ascii_of_nat n) EmptyString.

Definition hexDigit (n : nat) : string :=
  chr (if (n <? 10)%nat then 48 + n else 87 + n).

(** The escapes of the JSON writer for one byte. *)
Definition escapeByte (c : ascii) : string :=
  let n := nat_of_ascii c in
  if (n =? 34)%nat then chr 92 +:+ chr 34
  else if (n =? 92)%nat then chr 92 +:+ chr 92
  else if (n =? 10)%nat then chr 92 +:+ "n"
  else if (n =? 13)%nat then chr 92 +:+ "r"
  else if (n =? 9)%nat then chr 92 +:+ "t"
  else if (n <? 32)%nat || (n =? 60)%nat || (n =? 62)%nat || (n =? 38)%nat
       then chr 92 +:+ "u00" +:+ hexDigit (n / 16) +:+ hexDigit (n mod 16)
  else String.String c EmptyString.

Fixpoint escape (s : string) : string :=
  match s with
  | EmptyString => EmptyString
  | String.String c rest => escapeByte c +:+ escape rest
  end.

Definition showZ (z : Z) : string :=
  match z with
  | Z0 => "0"
  | Zpos p => Itoa (Pos.to_nat p)
  | Zneg p => "-" +:+ Itoa (Pos.to_nat p)
  end.

Fixpoint render (j : json) : string :=
  match j with
  | JNull => "null"
  | JBool true => "true"
  | JBool false => "false"
  | JNum z => showZ z
  | JStr s => dquote +:+ escape s +:+ dquote
  | JArr items => "[" +:+ Join (map render items) "," +:+ "]"
  | JObj members =>
      "{" +:+ Join ((fix each (ms : list (string * json)) : list string :=
                       match ms with
                       | [] => []
                       | (k, x) :: rest =>
                           (dquote +:+ escape k +:+ dquote +:+ ":" +:+ render x)
                             :: each rest
                       end) members) "," +:+ "}"
  end.

(** *** The reader *)

Definition isBlank (c : ascii) : bool :=
  let n := nat_of_ascii c in
  (n =? 32)%nat || (n =? 9)%nat || (n =? 10)%nat || (n =? 13)%nat.

Fixpoint skipBlank (s : string) : string :=
  match s with
  | String.String c rest => if isBlank c then skipBlank rest else s
  | EmptyString => s
  end.

Definition hexValue (c : ascii) : option nat :=
  let n := nat_of_ascii c in
  if (48 <=? n)%nat && (n <=? 57)%nat then Some (n - 48)
  else if (97 <=? n)%nat && (n <=? 102)%nat then Some (n - 87)
  else if (65 <=? n)%nat && (n <=? 70)%nat then Some (n - 55)
  else None.

(** The content of a string literal, read after its opening quote; of the
    [\u] escapes, those of a single byte are read. *)
Fixpoint readString (s acc : string) : option (string * string) :=
  match s with
  | EmptyString => None
  | String.String c rest =>
      if (nat_of_ascii c =? 34)%nat then Some (acc, rest)
      else if (nat_of_ascii c =? 92)%nat then
        match rest with
        | String.String e rest' =>
            let n := nat_of_ascii e in
            if (n =? 117)%nat then
              match rest' with
              | String.String a (String.String b (String.String h (String.String l rest''))) =>
                  match hexValue a, hexValue b, hexValue h, hexValue l with
                  | Some 0, Some 0, Some x, Some y =>
                      readString rest'' (acc +:+ chr (16 * x + y))
                  | _, _, _, _ => None
                  end
              | _ => None
              end
            else
              let plain :=
                if (n =? 110)%nat then chr 10
                else if (n =? 114)%nat then chr 13
                else if (n =? 116)%nat then chr 9
                else String.String e EmptyString in
              readString rest' (acc +:+ plain)
        | EmptyString => None
        end
      else readString rest (acc +:+ String.String c EmptyString)
  end.

Fixpoint readDigits (s : string) (acc : Z) (seen : bool) : option (Z * string) :=
  match s with
  | String.String c rest =>
      let n := nat_of_ascii c in
      if (48 <=? n)%nat && (n <=? 57)%nat
      then readDigits rest (10 * acc + Z.of_nat (n - 48))%Z true
      else if seen then Some (acc, s) else None
  | EmptyString => if seen then Some (acc, s) else None
  end.

Fixpoint readValue (fuel : nat) (s : string) : option (json * string) :=
  match fuel with
  | 0 => None
  | S fuel =>
      let items :=
        fix items (k : nat) (s : string) (acc : list json)
            : option (list json * string) :=
          match k with
          | 0 => None
          | S k =>
              match readValue fuel s with
              | None => None
              | Some (x, r) =>
                  match skipBlank r with
                  | String.String c r' =>
                      if (nat_of_ascii c =? 44)%nat then items k r' (acc ++ [x])%list
                      else if (nat_of_ascii c =? 93)%nat then Some ((acc ++ [x])%list, r')
                      else None
                  | EmptyString => None
                  end
              end
          end in
      let members :=
        fix members (k : nat) (s : string) (acc : list (string * json))
            : option (list (string * json) * string) :=
          match k with
          | 0 => None
          | S k =>
              match skipBlank s with
              | String.String q r =>
                  if (nat_of_ascii q =? 34)%nat then
                    match readString r EmptyString with
                    | None => None
                    | Some (key, r1) =>
                        match skipBlank r1 with
                        | String.String colon r2 =>
                            if (nat_of_ascii colon =? 58)%nat then
                              match readValue fuel r2 with
                              | None => None
                              | Some (x, r3) =>
                                  match skipBlank r3 with
                                  | String.String c r4 =>
                                      if (nat_of_ascii c =? 44)%nat
                                      then members k r4 (acc ++ [(key, x)])%list
                                      else if (nat_of_ascii c =? 125)%nat
                                      then Some ((acc ++ [(key, x)])%list, r4)
                                      else None
                                  | EmptyString => None
                                  end
                              end
                            else None
                        | EmptyString => None
                        end
                    end
                  else None
              | EmptyString => None
              end
          end in
      match skipBlank s with
      | EmptyString => None
      | String.String c rest as s' =>
          let n := nat_of_ascii c in
          if (n =? 34)%nat then
            match readString rest EmptyString with
            | Some (str, r) => Some (JStr str, r)
            | None => None
            end
          else if (n =? 91)%nat then
            match skipBlank rest with
            | String.String c' r' =>
                if (nat_of_ascii c' =? 93)%nat then Some (JArr [], r')
                else
                  match items fuel rest [] with
                  | Some (l, r) => Some (JArr l, r)
                  | None => None
                  end
            | EmptyString => None
            end
          else if (n =? 123)%nat then
            match skipBlank rest with
            | String.String c' r' =>
                if (nat_of_ascii c' =? 125)%nat then Some (JObj [], r')
                else
                  match members fuel rest [] with
                  | Some (l, r) => Some (JObj l, r)
                  | None => None
                  end
            | EmptyString => None
            end
          else if (n =? 45)%nat then
            match readDigits rest 0%Z false with
            | Some (z, r) => Some (JNum (- z), r)
            | None => None
            end
          else
            match stripPrefix "null" s', stripPrefix "true" s', stripPrefix "false" s' with
            | Some r, _, _ => Some (JNull, r)
            | _, Some r, _ => Some (JBool true, r)
            | _, _, Some r => Some (JBool false, r)
            | None, None, None =>
                match readDigits s' 0%Z false with
                | Some (z, r) => Some (JNum z, r)
                | None => None
                end
            end
      end
  end.

(** The document a whole text spells. *)
Definition parse (s : string) : outcome string json :=
  match readValue (S (String.length s)) s with
  | Some (j, rest) =>
      if String.eqb (skipBlank rest) "" then Ok j
      else Err "invalid character after top-level value"
  | None => Err "unexpected end of JSON input"
  end.

(** *** The instances *)

Definition hasControlByte (s : string) : bool :=
  existsb (λ c, let n := nat_of_ascii c in (n <? 32)%nat || (n =? 127)%nat)
    (list_ascii_of_string s).

(** The first two checks of [url.Parse]: no control byte, and no colon
    where the scheme should start. *)
Definition parseURL (s : string) : outcome string string :=
  if hasControlByte s then Err "net/url: invalid control character in URL"
  else if HasPrefix s ":" then Err "missing protocol scheme"
  else Ok s.

#[export] Instance lib : GoLib := {|
  URL := string;
  url_Parse := parseURL;
  url_Query := λ _, [];
  http_NewRequest_error := λ _ target,
    match target with
    | RawTarget e =>
        match parseURL e with
        | Err msg => Some msg
        | _ => None
        end
    | ParsedTarget _ _ => None
    end;
  json_Encode := render;
  DetectContentType := λ _, "text/plain; charset=utf-8";
  boundary := "boundary";
|}.

(** A [Doer] that answers every request with the outcome it holds. *)
#[export] Instance canned : Doer (outcome string HttpResponse) := λ d _, d.

Definition message (j : json) : gqlerror :=
  match member "message" j with
  | Some (JStr s) => mkGqlError s
  | _ => mkGqlError EmptyString
  end.

(** The decoder: the members [data], [extensions] and [errors] of the
    body replace the fields of the response object. *)
#[export] Instance decoder : Decoder := λ body resp,
  match parse (pending body) with
  | Ok (JObj ms) =>
      (mkResponse
         (default (Data resp) (assoc "data" ms))
         (match assoc "extensions" ms with
          | Some x => Some x
          | None => Extensions resp
          end)
         (match assoc "errors" ms with
          | Some (JArr l) => map message l
          | _ => Errors resp
          end),
       None)
  | Ok _ => (resp, Some "json: cannot unmarshal into Go value of type graphql.Response")
  | Err e => (resp, Some (default e (failure body)))
  | Panic msg => (resp, Some msg)
  end.

(** Generated structs stand as the document they were decoded from. *)
#[export] Instance text : JsonText json := {|
  json_Parse := parse;
  UnmarshalNew := λ _ m,
    match parse m with
    | Ok j => (j, None)
    | Err e => (JNull, Some e)
    | Panic msg => (JNull, Some msg)
    end;
|}.

Definition okResponse (body : string) : outcome string HttpResponse :=
  Ok (mkHttpResponse 200 "200 OK" (mkReader body None)).

End Reference.

(** ** Closed inputs for the examples *)
Module Examples.
Import Reference.

Definition endpoint0 : string := "http://example.com/graphql".

Definition emptyResponse : Response := mkResponse JNull None [].

(** A client whose [Doer] answers with the given status and body. *)
Definition answering (method : string) (code : Z) (status : string)
    (body : ReaderState) : client (outcome string HttpResponse) :=
  mkClient (Ok (mkHttpResponse code status body)) endpoint0 method.

Definition plainQuery : Request :=
  mkRequest "query DefaultInputs { default }" None "DefaultInputs" false.

Definition partialData : json := JObj [ ("default", JBool true) ].

(** A body with data and one error. *)
Definition errorsBody : string :=
  render (JObj [ ("data", partialData);
                 ("errors", JArr [ JObj [ ("message", JStr "boom") ] ]) ]).

Definition decodedErrors : Response :=
  mkResponse partialData None [ mkGqlError "boom" ].

(** [plainQuery] as [createPostRequest] builds it. *)
Definition postedQuery : HttpRequest :=
  mkHttpRequest _ MethodPost (RawTarget endpoint0) []
    (BytesBody (Marshal_Request plainQuery)) None.

Definition mutationText : string := "  mutation Rename { rename }".

Definition mutationRequest : Request :=
  mkRequest mutationText None "Rename" false.

(** A GET client, and one whose endpoint is no URL. *)
Definition getClient : client (outcome string HttpResponse) :=
  NewClientUsingGet (Err "no network") endpoint0
    (Some (okResponse "{}")).

Definition brokenGetClient : client (outcome string HttpResponse) :=
  NewClientUsingGet (Err "no network") ":" (Some (okResponse "{}")).

Definition uploadingQuery : Request :=
  MultipartUploadOption plainQuery.

(** The interface [Node] with the implementations [User] and [Bot]. *)
Definition Node : InterfaceType :=
  mkInterfaceType "QueryNode" "Node"
    [ mkImplementation "User" "QueryNodeUser";
      mkImplementation "Bot" "QueryNodeBot" ].

Definition adaMembers : list (string * json) :=
  [ ("__typename", JStr "User"); ("id", JStr "1"); ("name", JStr "Ada") ].

Definition adaText : string := render (JObj adaMembers).

(** Two uploads of the same bytes, under two file names and under one. *)
Definition twoReaders : Store :=
  <[0 := mkReader "hello" None]> (<[1 := mkReader "hello" None]> ∅).

Definition uploadsOf (name0 name1 : string) : option Value :=
  Some (VPtr (Some (VStruct
    [ (mkField "A" "a", VUpload (mkUpload name0 (ExtReader 0)));
      (mkField "B" "b", VUpload (mkUpload name1 (ExtReader 1))) ]))).

Definition uploadRequest (name0 name1 : string) : Request :=
  mkRequest "mutation Up($a: Upload!, $b: Upload!) { up(a: $a, b: $b) }"
    (uploadsOf name0 name1) "Up" true.

(** The files [findFiles] collects from [uploadsOf]. *)
Definition collected (name0 name1 : string) : list fileVariable :=
  [ mkFileVariable "variables.a" (mkUpload name0 (ExtReader 0));
    mkFileVariable "variables.b" (mkUpload name1 (ExtReader 1)) ].

Definition postClient : client (outcome string HttpResponse) :=
  NewClient (Err "no network") endpoint0 (Some (okResponse "{}")).

Definition emptyPost : HttpRequest :=
  mkHttpRequest _ MethodPost (RawTarget endpoint0) [] NoBody None.

Definition multipart (parts : list Part) : HttpRequest :=
  mkHttpRequest _ MethodPost (RawTarget endpoint0)
    [ ("Content-Type", "multipart/form-data; boundary=boundary") ]
    (MultipartBody parts) None.

Definition filePart (i name : string) : Part :=
  mkPart i (Some name) (Some "text/plain; charset=utf-8") "hello".

(** [plainQuery] as [createGetRequest] builds it for [getClient]. *)
Definition gotQuery : HttpRequest :=
  mkHttpRequest _ MethodGet
    (ParsedTarget endpoint0
       (Some [ ("query", [ Query plainQuery ]);
               ("operationName", [ OpName plainQuery ]) ]))
    [] NoBody None.

(** A wire object whose discriminator is a number. *)
Definition numberedMembers : list (string * json) :=
  [ ("__typename", JNum 5); ("id", JStr "1") ].

Definition numberedText : string := render (JObj numberedMembers).

(** Two uploads named alike that hold one reader. *)
Definition sharingRequest : Request :=
  mkRequest "mutation Up($a: Upload!, $b: Upload!) { up(a: $a, b: $b) }"
    (Some (VPtr (Some (VStruct
       [ (mkField "A" "a", VUpload (mkUpload "a.txt" (ExtReader 0)));
         (mkField "B" "b", VUpload (mkUpload "a.txt" (ExtReader 0))) ]))))
    "Up" true.

Definition someInput : InputWithDefaults := mkInputWithDefaults "x" "".

End Examples.

(** ** Notions of the specification *)
Module Spec.

(** A status of the 2xx class. *)
Definition is2xx (code : Z) : bool := (200 <=? code)%Z && (code <? 300)%Z.

(** The text carried by a [TransportError] for a response body: the body
    itself, or the placeholder when reading it fails. *)
Definition bodyText (body : ReaderState) : string :=
  match failure body with
  | Some e => "<unreadable: " +:+ e +:+ ">"
  | None => pending body
  end.

(** No member of the object is a discriminator key. *)
Definition absent (ms : list (string * json)) : Prop :=
  Forall (λ kv, isTypeNameKey kv.1 = false) ms.

(** The discriminator a wire object carries: the string under its one
    discriminator key, or the empty string when it has none. *)
Inductive discriminator : list (string * json) → string → Prop :=
| discriminator_absent ms :
    absent ms → discriminator ms ""
| discriminator_present before k tn after :
    absent before → isTypeNameKey k = true → absent after →
    discriminator (before ++ (k, JStr tn) :: after) tn.

(** The possible types of an interface are named apart, and none has the
    empty name. *)
Definition wellFormed (T : InterfaceType) : Prop :=
  NoDup (map implGraphQLName (Implementations T))
  ∧ "" ∉ map implGraphQLName (Implementations T).

(** *** The grouping of uploads

    What reading a reader to its end yields, when that succeeds: nothing for
    a nil reader, a missing one, or one whose stream fails. *)
Definition content (σ : Store) (r : Reader) : option string :=
  match r with
  | NilReader => None
  | BytesReader unread => Some unread
  | ExtReader id =>
      match σ !! id with
      | Some st =>
          match failure st with
          | Some _ => None
          | None => Some (pending st)
          end
      | None => None
      end
  end.

Definition readable (σ : Store) (fv : fileVariable) : Prop :=
  is_Some (content σ (Body (file fv))).

(** The readers of the caller that a list of files holds, with
    repetition: no repetition means that no reader is shared. *)
Definition extId (r : Reader) : list nat :=
  match r with
  | ExtReader id => [id]
  | _ => []
  end.

Fixpoint ids (l : list fileVariable) : list nat :=
  match l with
  | [] => []
  | fv :: rest => extId (Body (file fv)) ++ ids rest
  end.

(** A file as the specification sees it: its dotted path, its file name
    and its content. *)
Record entry : Type := mkEntry {
  path : string;
  name : string;
  data : string;
}.

Definition entryOf (σ : Store) (fv : fileVariable) : entry :=
  mkEntry (mapKey fv) (FileName (file fv))
    (default "" (content σ (Body (file fv)))).

(** Two files are duplicates when they have the same file name and the
    same bytes. *)
Definition key (e : entry) : string * string := (name e, data e).

Definition sameFile (e1 e2 : entry) : bool :=
  String.eqb (name e1) (name e2) && String.eqb (data e1) (data e2).

(** A file joins the first group whose first file is a duplicate of it. *)
Fixpoint place (e : entry) (groups : list (list entry))
    : list (list entry) * bool :=
  match groups with
  | [] => ([], false)
  | g :: rest =>
      if match g with h :: _ => sameFile e h | [] => false end
      then ((g ++ [e]) :: rest, true)
      else let '(rest', found) := place e rest in (g :: rest', found)
  end.

(** Otherwise it opens a new group, after the others. *)
Definition addEntry (groups : list (list entry)) (e : entry)
    : list (list entry) :=
  let '(groups', found) := place e groups in
  if found : bool then groups' else groups' ++ [[e]].

Definition grouping (es : list entry) : list (list entry) :=
  foldl addEntry [] es.

(** The part uploaded for the group of index [i]: the content of its
    first file, under the file name of that file when trimming leaves
    one. *)
Definition partOf `{GoLib} (i : nat) (g : list entry) : list Part :=
  match g with
  | [] => []
  | h :: _ =>
      [ mkPart (Itoa i)
          (if String.eqb (TrimSpace (name h)) "" then None
           else Some (TrimSpace (name h)))
          (Some (DetectContentType (data h))) (data h) ]
  end.

Fixpoint partsOf `{GoLib} (i : nat) (groups : list (list entry)) : list Part :=
  match groups with
  | [] => []
  | g :: rest => partOf i g ++ partsOf (S i) rest
  end.

(** The groups are kept so that every group has a first file, of which
    the others are duplicates, and no two groups start with duplicates. *)
Definition headKey (g : list entry) : option (string * string) :=
  key <$> head g.

Definition keyed (groups : list (list entry)) : Prop :=
  Forall (λ g, ∃ h t, g = h :: t ∧ Forall (λ e, key e = key h) t) groups
  ∧ NoDup (headKey <$> groups).

(** The files of a list yield the same bytes in two stores. *)
Definition same (σ σ' : Store) (l : list fileVariable) : Prop :=
  ∀ x, x ∈ l → content σ' (Body (file x)) = content σ (Body (file x)).

End Spec.
Export Spec.

(** ** The generated function of the snapshot *)
Module Generated.

Definition newline : string := String.String (ascii_of_nat 10) EmptyString.
Definition tab : string := String.String (ascii_of_nat 9) EmptyString.

(** [DefaultInputs_Operation] *)
Definition DefaultInputs_Operation : string :=
  newline +:+ "query DefaultInputs ($input: InputWithDefaults!) {" +:+ newline
  +:+ tab +:+ "default(input: $input)" +:+ newline
  +:+ "}" +:+ newline.

(** [DefaultInputsResponse], and its zero value as the decoder finds it. *)
Record DefaultInputsResponse : Type := mkDefaultInputsResponse {
  Default : bool;
}.

Definition GetDefault (v : DefaultInputsResponse) : bool := Default v.

Definition DefaultInputsResponse_Value (v : DefaultInputsResponse) : Value :=
  VStruct [ (mkField "Default" "default", VBool (Default v)) ].

(** The request [DefaultInputs] builds. *)
Definition DefaultInputs_Request (input : InputWithDefaults) : Request :=
  mkRequest DefaultInputs_Operation (DefaultInputs_Variables input)
    "DefaultInputs" false.

(** [DefaultInputs(client_, input)]: the call of [MakeRequest] it makes,
    with a nil context and a response object that holds the zero
    [DefaultInputsResponse]; it returns the data of that object and the
    error of the call. *)
Definition DefaultInputs `{GoLib} `{!Decoder} {D : Type} `{!Doer D}
    (client_ : client D) (input : InputWithDefaults) (σ : Store) : Call :=
  MakeRequest client_ None (DefaultInputs_Request input)
    (mkResponse (toJSON (DefaultInputsResponse_Value (mkDefaultInputsResponse false)))
       None [])
    σ.

End Generated.
Export Generated.

(** ** Further notions for the properties below *)
Module Views.

(** The values of a key in [url.Values]. *)
Fixpoint valuesOf (k : string) (q : Values) : option (list string) :=
  match q with
  | [] => None
  | (k', vs) :: rest => if String.eqb k k' then Some vs else valuesOf k rest
  end.

(** The values a GET request carries for a key: the one the client sets
    for [query], [operationName] and [variables] when the request has
    them, the values of the endpoint otherwise. *)
Definition parameterOf `{GoLib} (req : Request) (endpointQuery : Values)
    (k : string) : option (list string) :=
  if String.eqb k "variables" && bool_decide (is_Some (Variables req)) then
    match Variables req with
    | Some v => Some [json_Encode (toJSON v)]
    | None => None
    end
  else if String.eqb k "operationName" && negb (String.eqb (OpName req) "")
  then Some [OpName req]
  else if String.eqb k "query" && negb (String.eqb (Query req) "")
  then Some [Query req]
  else valuesOf k endpointQuery.

(** A value with every upload replaced by the zero [Upload]. *)
Fixpoint blank (v : Value) : Value :=
  match v with
  | VPtr None => VPtr None
  | VPtr (Some e) => VPtr (Some (blank e))
  | VUpload _ => VUpload (mkUpload "" NilReader)
  | VStruct fields =>
      VStruct ((fix each (fs : list (StructField * Value)) :=
                  match fs with
                  | [] => []
                  | (f, x) :: rest => (f, blank x) :: each rest
                  end) fields)
  | VSlice None => VSlice None
  | VSlice (Some l) => VSlice (Some (map blank l))
  | VArray l => VArray (map blank l)
  | VString s => VString s
  | VInt z => VInt z
  | VBool b => VBool b
  | VInterface None => VInterface None
  | VInterface (Some e) => VInterface (Some (blank e))
  end.

(** The size of a value, for inductions over values. *)
Fixpoint size (v : Value) : nat :=
  match v with
  | VPtr (Some e) | VInterface (Some e) => S (size e)
  | VStruct fields =>
      S ((fix each (fs : list (StructField * Value)) :=
            match fs with
            | [] => 0
            | (_, x) :: rest => S (size x + each rest)
            end) fields)
  | VSlice (Some l) | VArray l =>
      S ((fix each (es : list Value) :=
            match es with
            | [] => 0
            | x :: rest => S (size x + each rest)
            end) l)
  | _ => 1
  end.

(** The first files of the groups. *)
Definition heads (filesGroup : list (list fileVariable)) : list fileVariable :=
  omap head filesGroup.

(** The keys of a list of files, each once. *)
Definition distinctKeys (es : list entry) : list (string * string) :=
  remove_dups (map key es).

(** A member of a wire object that names the discriminator and holds
    neither a string nor [null]. *)
Definition badDiscriminator (kv : string * json) : Prop :=
  isTypeNameKey kv.1 = true
  ∧ match kv.2 with
    | JStr _ | JNull => False
    | _ => True
    end.

(** Every struct field of a value carries a bare tag: a name without
    options, or no tag at all, and not ["-"]. *)
Fixpoint bareTags (v : Value) : bool :=
  match v with
  | VPtr (Some e) | VInterface (Some e) => bareTags e
  | VStruct fields =>
      (fix each (fs : list (StructField * Value)) : bool :=
         match fs with
         | [] => true
         | (f, x) :: rest =>
             String.eqb (tagName (Tag f)) (Tag f)
             && negb (String.eqb (Tag f) "-")
             && bareTags x && each rest
         end) fields
  | VSlice (Some l) | VArray l => forallb bareTags l
  | _ => true
  end.

(** The document found in a JSON document by following a dotted path:
    a member of an object by its key, an item of an array by its index. *)
Inductive placeAt : json → string → json → Prop :=
| placeAt_here j : placeAt j "" j
| placeAt_member ms k x rest t :
    (k, x) ∈ ms → placeAt x rest t →
    placeAt (JObj ms) ("." +:+ k +:+ rest) t
| placeAt_item l i x rest t :
    l !! i = Some x → placeAt x rest t →
    placeAt (JArr l) ("." +:+ Itoa i +:+ rest) t.

(** A file whose reader cannot be read to its end: a nil reader, or a
    stream that fails. *)
Definition unreadable (σ : Store) (fv : fileVariable) : Prop :=
  content σ (Body (file fv)) = None.

End Views.
Export Views.

(** ** Properties of [MakeRequest] *)
Section Transport.
Context `{GoLib} `{!Decoder} {D : Type} `{!Doer D}.

Lemma MakeRequest_answered c ctx req resp σ httpReq httpResp :
  buildRequest c req σ = Ok httpReq →
  Do (httpClient c) (prepareRequest c ctx req httpReq) = Ok httpResp →
  MakeRequest c ctx req resp σ =
    mkCall _ (handleResponse httpResp resp).1 (handleResponse httpResp resp).2
      [prepareRequest c ctx req httpReq].
Proof.
  intros Hb Hd. unfold MakeRequest. rewrite Hb. cbn zeta. rewrite Hd.
  by destruct (handleResponse httpResp resp).
Qed.

Lemma handleResponse_not_ok httpResp resp :
  StatusCode httpResp ≠ StatusOK →
  handleResponse httpResp resp =
    (Err (TransportError (Status httpResp) (bodyText (respBody httpResp))), resp).
Proof.
  intros Hs. unfold handleResponse.
  destruct (Z.eqb_spec (StatusCode httpResp) StatusOK) as [Heq|_]; [done|].
  reflexivity.
Qed.

Lemma handleResponse_ok httpResp resp :
  StatusCode httpResp = StatusOK →
  handleResponse httpResp resp =
    let '(resp', err) := DecodeResponse (respBody httpResp) resp in
    match err with
    | Some e => (Err (DecodeError e), resp')
    | None =>
        if decide (0 < length (Errors resp'))
        then (Err (GraphQLErrorList (Errors resp')), resp')
        else (Ok tt, resp')
    end.
Proof.
  intros Hs. unfold handleResponse. rewrite Hs. reflexivity.
Qed.

(** C3, as amended.  When the response has status 200 and its body decodes
    with a non-empty [errors] list, [MakeRequest] returns that list as the
    error, and the response object of the caller is the decoded one, data
    included. *)
Theorem errors_list_returned_on_200 c ctx req resp σ httpReq httpResp resp' :
  buildRequest c req σ = Ok httpReq →
  Do (httpClient c) (prepareRequest c ctx req httpReq) = Ok httpResp →
  StatusCode httpResp = StatusOK →
  DecodeResponse (respBody httpResp) resp = (resp', None) →
  Errors resp' ≠ [] →
  returned (MakeRequest c ctx req resp σ) = Err (GraphQLErrorList (Errors resp'))
  ∧ response (MakeRequest c ctx req resp σ) = resp'
  ∧ Data (response (MakeRequest c ctx req resp σ)) = Data resp'.
Proof.
  intros Hb Hd Hs Hdec Herrs.
  rewrite (MakeRequest_answered _ _ _ _ _ _ _ Hb Hd).
  rewrite (handleResponse_ok _ _ Hs), Hdec.
  case_decide as Hlen; [done|].
  destruct (Errors resp'); [done|]. simpl in Hlen. lia.
Qed.

(** C4, as amended.  When the response has a status other than 200,
    [MakeRequest] fails with a [TransportError] that carries the status
    line and the raw body, or the placeholder when the body cannot be read,
    and the response object is left as it was; when the status is 200 the
    call does not fail with a [TransportError]. *)
Theorem transport_error_unless_200 c ctx req resp σ httpReq httpResp :
  buildRequest c req σ = Ok httpReq →
  Do (httpClient c) (prepareRequest c ctx req httpReq) = Ok httpResp →
  (StatusCode httpResp ≠ StatusOK →
   returned (MakeRequest c ctx req resp σ) =
     Err (TransportError (Status httpResp) (bodyText (respBody httpResp)))
   ∧ response (MakeRequest c ctx req resp σ) = resp)
  ∧ (StatusCode httpResp = StatusOK →
     ∀ status body,
       returned (MakeRequest c ctx req resp σ) ≠ Err (TransportError status body)).
Proof.
  intros Hb Hd.
  rewrite (MakeRequest_answered _ _ _ _ _ _ _ Hb Hd). split.
  - intros Hs. by rewrite (handleResponse_not_ok _ _ Hs).
  - intros Hs status body. rewrite (handleResponse_ok _ _ Hs).
    destruct (DecodeResponse (respBody httpResp) resp) as [resp' [e|]]; simpl.
    + discriminate.
    + case_decide; discriminate.
Qed.

Lemma TrimSpace_empty : TrimSpace "" = "".
Proof. reflexivity. Qed.

Lemma mutation_not_empty q :
  HasPrefix (TrimSpace q) "mutation" = true → String.eqb q "" = false.
Proof.
  destruct q; [|done]. rewrite TrimSpace_empty. discriminate.
Qed.

Lemma createGetRequest_mutation (c : client D) req :
  HasPrefix (TrimSpace (Query req)) "mutation" = true →
  createGetRequest c req =
    match url_Parse (endpoint c) with
    | Ok _ => Err UnsupportedOperation
    | Err e => Err (URLError e)
    | Panic msg => Panic msg
    end.
Proof.
  intros Hm. unfold createGetRequest.
  destruct (url_Parse (endpoint c)); [|done..].
  by rewrite (mutation_not_empty _ Hm), Hm.
Qed.

(** C5, as amended.  A GET client given a query text that begins, white
    space apart, with [mutation] never calls [Do] and never returns
    success; when its endpoint parses as a URL, the error it returns is
    [UnsupportedOperation]. *)
Theorem get_refuses_mutation c ctx req resp σ :
  method c = MethodGet →
  HasPrefix (TrimSpace (Query req)) "mutation" = true →
  sent (MakeRequest c ctx req resp σ) = []
  ∧ is_ok (returned (MakeRequest c ctx req resp σ)) = false
  ∧ (∀ parsedURL, url_Parse (endpoint c) = Ok parsedURL →
     returned (MakeRequest c ctx req resp σ) = Err UnsupportedOperation).
Proof.
  intros Hget Hm. unfold MakeRequest, buildRequest.
  rewrite Hget. simpl String.eqb. cbv iota.
  rewrite (createGetRequest_mutation _ _ Hm).
  destruct (url_Parse (endpoint c)) as [u|e|msg]; simpl; repeat split; try done.
Qed.





End Transport.

(** ** Properties of the [__unmarshal] helper *)
Section Discriminator.
Context {V : Type} `{!JsonText V}.

(** C9.  The wire value [null] decodes without error and leaves the target
    as it was. *)
Theorem unmarshal_null_keeps_target (T : InterfaceType) (v : option (string * V)) :
  __unmarshal T v "null" = (v, Ok tt).
Proof. reflexivity. Qed.

Lemma decodeTypeName_absent ms tn saved :
  absent ms → decodeTypeName ms tn saved = (tn, saved).
Proof.
  induction 1 as [|[k x] ms Hk _ IH]; [done|].
  simpl in *. by rewrite Hk.
Qed.

Lemma decodeTypeName_discriminator ms tn :
  discriminator ms tn → decodeTypeName ms "" None = (tn, None).
Proof.
  destruct 1 as [ms Habs|before k tn after Hb Hk Ha].
  - by apply decodeTypeName_absent.
  - induction Hb as [|[k' x] before Hk' _ IH]; simpl in *.
    + rewrite Hk. by apply decodeTypeName_absent.
    + by rewrite Hk'.
Qed.

Lemma UnmarshalTypeName_object m ms tn :
  json_Parse m = Ok (JObj ms) → discriminator ms tn →
  UnmarshalTypeName m = Ok tn.
Proof.
  intros Hp Hd. unfold UnmarshalTypeName. rewrite Hp. simpl.
  by rewrite (decodeTypeName_discriminator _ _ Hd).
Qed.

Lemma find_name_none (tn : string) (impls : list Implementation) :
  tn ∉ map implGraphQLName impls →
  List.find (λ i, String.eqb tn (implGraphQLName i)) impls = None.
Proof.
  induction impls as [|i impls IH]; [done|]. simpl. intros Hn.
  destruct (String.eqb_spec tn (implGraphQLName i)) as [->|_].
  - exfalso. apply Hn. left.
  - apply IH. intros ?. apply Hn. by right.
Qed.

Lemma find_name_some (impl : Implementation) (impls : list Implementation) :
  NoDup (map implGraphQLName impls) → impl ∈ impls →
  List.find (λ i, String.eqb (implGraphQLName impl) (implGraphQLName i)) impls
  = Some impl.
Proof.
  induction impls as [|i impls IH]; simpl.
  - by intros _ ?%elem_of_nil.
  - intros [Hni Hnd]%NoDup_cons [->|Hin]%elem_of_cons.
    + by rewrite String.eqb_refl.
    + destruct (String.eqb_spec (implGraphQLName impl) (implGraphQLName i)) as [Heq|_].
      * exfalso. apply Hni. rewrite <- Heq.
        change (implGraphQLName impl ∈ implGraphQLName <$> impls).
        by apply list_elem_of_fmap_2.
      * by apply IH.
Qed.

(** C2, as amended.  For a wire value other than [null] that spells a JSON
    object carrying the discriminator [tn] (the empty string when the key
    is absent): an empty [tn] fails with [MissingDiscriminator]; a [tn]
    outside the possible types fails with [UnknownVariant]; a [tn] naming
    a possible type sets the target to a fresh value of that type's
    variant, decoded from the wire value, and returns the error of that
    decoding. *)
Theorem discriminator_selects_variant (T : InterfaceType) (v : option (string * V))
    (m : string) (ms : list (string * json)) (tn : string) :
  wellFormed T →
  String.eqb m "null" = false →
  json_Parse m = Ok (JObj ms) →
  discriminator ms tn →
  (tn = "" → __unmarshal T v m = (v, Err (MissingDiscriminator (GraphQLName T))))
  ∧ (tn ≠ "" → tn ∉ map implGraphQLName (Implementations T) →
     __unmarshal T v m = (v, Err (UnknownVariant (GoName T) tn)))
  ∧ (∀ impl, impl ∈ Implementations T → implGraphQLName impl = tn →
     __unmarshal T v m =
       (Some (implGoName impl, (UnmarshalNew (implGoName impl) m).1),
        match (UnmarshalNew (implGoName impl) m).2 with
        | Some e => Err (JSONError e)
        | None => Ok tt
        end)).
Proof.
  intros [Hnd Hne] Hnull Hp Hd.
  unfold __unmarshal. rewrite Hnull, (UnmarshalTypeName_object _ _ _ Hp Hd).
  unfold selectCase. repeat split.
  - intros ->. by rewrite (find_name_none _ _ Hne).
  - intros Htn Hout. rewrite (find_name_none _ _ Hout).
    by destruct (String.eqb_spec tn "").
  - intros impl Hin <-. rewrite (find_name_some _ _ Hnd Hin).
    by destruct (UnmarshalNew (implGoName impl) m).
Qed.

End Discriminator.

(** ** Properties of the generated input type *)
Section Inputs.


Lemma DefaultInputs_Variables_json input :
  option_map toJSON (DefaultInputs_Variables input)
  = Some (JObj [("input", toJSON (InputWithDefaults_Value input))]).
Proof. reflexivity. Qed.

End Inputs.

(** ** Properties of [findFiles] and of the packer without files *)
Section Packer.
Context `{GoLib} {D : Type}.

(** The key [findFiles] gives a struct field is the wire key when the tag
    is a bare name. *)
Lemma bare_tag_is_wire_key (f : StructField) :
  tagName (Tag f) = Tag f → Tag f ≠ "" → Tag f ≠ "-" →
  (if negb (String.eqb (Tag f) "") && negb (String.eqb (Tag f) "-")
   then Tag f else Name f) = wireKey f.
Proof.
  intros Hbare Hne Hd. unfold wireKey. rewrite Hbare.
  destruct (String.eqb_spec (Tag f) ""); [done|].
  by destruct (String.eqb_spec (Tag f) "-").
Qed.

(** C7, at an input on which the code departs from it.  For an upload
    under a field tagged [file,omitempty] inside a field tagged [input],
    [findFiles] builds the path from the whole tag, options included, while
    the field is serialized under the key [file]. *)
Theorem findFiles_keeps_tag_options (u : Upload) :
  findFiles "variables"
    (ValueOf (Some (VPtr (Some (VStruct
       [ (mkField "Input" "input",
          VStruct [ (mkField "File" "file,omitempty", VUpload u) ]) ])))))
  = Ok [ mkFileVariable "variables.input.file,omitempty" u ]
  ∧ wireKey (mkField "File" "file,omitempty") = "file"
  ∧ toJSON (VStruct [ (mkField "File" "file,omitempty", VUpload u) ])
    = JObj [ ("file", JNull) ].
Proof. done. Qed.

(** C8, at an input on which the code departs from it.  A request without
    variables has no file, yet building its upload request never succeeds:
    [findFiles] panics on the zero [reflect.Value]. *)
Theorem upload_without_variables_fails (c : client D) (q op : string) (flag : bool)
    (σ : Store) :
  findFiles "variables" (ValueOf (Variables (mkRequest q None op flag)))
  = Panic "reflect: call of reflect.Value.Type on zero Value"
  ∧ is_ok (createUploadFileRequest c (mkRequest q None op flag) σ) = false.
Proof.
  split; [done|]. unfold createUploadFileRequest.
  by destruct (NewRequest _ _ _).
Qed.

(** With variables that hold no file, and an endpoint [http.NewRequest]
    accepts, the body has the [operations] field with the serialized
    request, the [map] field with the empty text, and no other part. *)
Lemma upload_without_files (c : client D) (req : Request) (σ : Store)
    (v : Value) (r0 : HttpRequest) :
  NewRequest MethodPost (RawTarget (endpoint c)) NoBody = Ok r0 →
  Variables req = Some v →
  findFilesIn false "variables" v = [] →
  createUploadFileRequest c req σ =
    Ok (setHeader "Content-Type" FormDataContentType
          (setRequestBody
             (MultipartBody [ WriteField "operations" (Marshal_Request req);
                              WriteField "map" "" ]) r0)).
Proof.
  intros Hn Hv Hf. unfold createUploadFileRequest.
  rewrite Hn, Hv. simpl. by rewrite Hf.
Qed.

End Packer.

(** ** The grouping of the specification *)
Section Grouping.

Lemma sameFile_key e h : sameFile e h = true ↔ key e = key h.
Proof.
  unfold sameFile, key. rewrite andb_true_iff, !String.eqb_eq.
  split; [by intros [-> ->]|by intros [= -> ->]].
Qed.

Lemma place_found e G G' :
  place e G = (G', true) →
  ∃ G1 g G2, G = G1 ++ g :: G2 ∧ G' = G1 ++ (g ++ [e]) :: G2
             ∧ headKey g = Some (key e).
Proof.
  revert G'. induction G as [|g G IH]; intros G'; simpl; [done|].
  destruct g as [|h t] eqn:Hg.
  - destruct (place e G) as [rest' found]. intros [= <- ->].
    destruct (IH _ eq_refl) as (G1 & g' & G2 & -> & -> & Hk).
    by exists ([] :: G1), g', G2.
  - destruct (sameFile e h) eqn:Hs.
    + intros [= <-]. exists [], (h :: t), G. repeat split.
      apply sameFile_key in Hs. unfold headKey. simpl. by rewrite Hs.
    + destruct (place e G) as [rest' found]. intros [= <- ->].
      destruct (IH _ eq_refl) as (G1 & g' & G2 & -> & -> & Hk).
      by exists ((h :: t) :: G1), g', G2.
Qed.

Lemma place_not_found e G G' :
  place e G = (G', false) → G' = G ∧ Some (key e) ∉ headKey <$> G.
Proof.
  revert G'. induction G as [|g G IH]; intros G'; simpl.
  - intros [= <-]. split; [done|]. by intros ?%elem_of_nil.
  - destruct g as [|h t] eqn:Hg.
    + destruct (place e G) as [rest' found]. intros [= <- ->].
      destruct (IH _ eq_refl) as [-> Hn]. split; [done|].
      intros [Hc|Hc]%elem_of_cons; [done|by apply Hn].
    + destruct (sameFile e h) eqn:Hs; [done|].
      destruct (place e G) as [rest' found]. intros [= <- ->].
      destruct (IH _ eq_refl) as [-> Hn]. split; [done|].
      intros [Hc|Hc]%elem_of_cons; [|by apply Hn].
      unfold headKey in Hc. simpl in Hc.
      assert (key e = key h) as Hkey by congruence.
      apply sameFile_key in Hkey. congruence.
Qed.

Lemma keyed_nil : keyed [].
Proof. split; [constructor|]. simpl. constructor. Qed.

Lemma addEntry_keyed G e : keyed G → keyed (addEntry G e).
Proof.
  intros [Hall Hnd]. unfold addEntry.
  destruct (place e G) as [G' found] eqn:Hp. destruct found.
  - apply place_found in Hp as (G1 & g & G2 & -> & -> & Hk).
    apply Forall_app in Hall as [H1 [Hg H2]%Forall_cons]. split.
    + apply Forall_app. split; [done|]. apply Forall_cons. split; [|done].
      destruct Hg as (h & t & -> & Ht). exists h, (t ++ [e]). split; [done|].
      apply Forall_app. split; [done|]. apply Forall_singleton.
      unfold headKey in Hk. simpl in Hk. congruence.
    + revert Hnd. rewrite !fmap_app, !fmap_cons.
      destruct Hg as (h & t & -> & Ht). done.
  - apply place_not_found in Hp as [-> Hn]. split.
    + apply Forall_app. split; [done|]. apply Forall_singleton.
      by exists e, [].
    + rewrite fmap_app. apply NoDup_app. repeat split; [done| |apply NoDup_singleton].
      intros k Hk ->%list_elem_of_singleton. by apply Hn.
Qed.

Lemma addEntry_grows G e i g :
  G !! i = Some g → ∃ g', addEntry G e !! i = Some g' ∧ ∀ x, x ∈ g → x ∈ g'.
Proof.
  intros Hi. unfold addEntry.
  destruct (place e G) as [G' found] eqn:Hp. destruct found.
  - apply place_found in Hp as (G1 & g0 & G2 & -> & -> & Hk).
    destruct (decide (i = length G1)) as [->|Hne].
    + rewrite list_lookup_middle in Hi by done. injection Hi as <-.
      exists (g0 ++ [e]). split; [by apply list_lookup_middle|].
      intros x Hx. apply elem_of_app. by left.
    + exists g. split; [|done].
      destruct (decide (i < length G1)) as [Hlt|Hge].
      * rewrite lookup_app_l in Hi |- * by done. done.
      * rewrite lookup_app_r in Hi |- * by lia.
        destruct (i - length G1) as [|n] eqn:Hn; [lia|]. done.
  - apply place_not_found in Hp as [-> _]. exists g. split; [|done].
    by apply lookup_app_l_Some.
Qed.

Lemma addEntry_holds G e : ∃ i g, addEntry G e !! i = Some g ∧ e ∈ g.
Proof.
  unfold addEntry. destruct (place e G) as [G' found] eqn:Hp. destruct found.
  - apply place_found in Hp as (G1 & g0 & G2 & -> & -> & Hk).
    exists (length G1), (g0 ++ [e]). split; [by apply list_lookup_middle|].
    apply elem_of_app. right. by apply list_elem_of_singleton.
  - apply place_not_found in Hp as [-> _].
    exists (length G), [e]. split; [by apply list_lookup_middle|].
    by apply list_elem_of_singleton.
Qed.

Lemma foldl_addEntry es : ∀ G,
  keyed G →
  keyed (foldl addEntry G es)
  ∧ (∀ i g, G !! i = Some g →
       ∃ g', foldl addEntry G es !! i = Some g' ∧ ∀ x, x ∈ g → x ∈ g')
  ∧ (∀ e, e ∈ es → ∃ i g, foldl addEntry G es !! i = Some g ∧ e ∈ g).
Proof.
  induction es as [|e es IH]; intros G HG; simpl.
  - split; [done|split]; [by eauto|by intros ? ?%elem_of_nil].
  - destruct (IH _ (addEntry_keyed G e HG)) as (Hk & Hgrow & Hin).
    split; [done|split].
    + intros i g Hi. destruct (addEntry_grows G e i g Hi) as (g1 & H1 & Hsub).
      destruct (Hgrow _ _ H1) as (g2 & H2 & Hsub2). exists g2. split; [done|auto].
    + intros x [->|Hx]%elem_of_cons; [|by apply Hin].
      destruct (addEntry_holds G e) as (i & g & Hi & He).
      destruct (Hgrow _ _ Hi) as (g' & Hi' & Hsub). exists i, g'. auto.
Qed.

Lemma keyed_head G i g e :
  keyed G → G !! i = Some g → e ∈ g → headKey g = Some (key e).
Proof.
  intros [Hall _] Hi He.
  apply (Forall_lookup_1 _ _ _ _ Hall) in Hi as (h & t & -> & Ht).
  unfold headKey. simpl. f_equal.
  apply elem_of_cons in He as [->|He]; [done|].
  symmetry. by apply (proj1 (Forall_forall _ _) Ht).
Qed.



End Grouping.

(** ** The packer refines the grouping *)
Section Refinement.
Context `{GoLib}.

Lemma ids_app l k : ids (l ++ k) = ids l ++ ids k.
Proof. induction l as [|fv l IH]; simpl; [done|]. by rewrite IH, (assoc_L (++)). Qed.

Lemma elem_of_ids l fv id :
  fv ∈ l → Body (file fv) = ExtReader id → id ∈ ids l.
Proof.
  induction l as [|x l IH]; [by intros ?%elem_of_nil|].
  intros [->|Hin]%elem_of_cons Hb; simpl; apply elem_of_app.
  - left. rewrite Hb. by apply list_elem_of_singleton.
  - right. by apply IH.
Qed.

Lemma NoDup_sub (l k : list nat) : l ⊆+ k → NoDup k → NoDup l.
Proof.
  intros [k' Hk]%submseteq_Permutation Hn. rewrite Hk in Hn.
  by apply NoDup_app in Hn as [? _].
Qed.

Lemma same_refl σ l : same σ σ l.
Proof. by intros x _. Qed.

Lemma same_trans σ1 σ2 σ3 l : same σ1 σ2 l → same σ2 σ3 l → same σ1 σ3 l.
Proof. intros H12 H23 x Hx. by rewrite (H23 x Hx), (H12 x Hx). Qed.

Lemma same_weaken σ σ' l k : (∀ x, x ∈ k → x ∈ l) → same σ σ' l → same σ σ' k.
Proof. intros Hsub Hs x Hx. apply Hs, Hsub, Hx. Qed.

Lemma same_entryOf σ σ' l x : same σ σ' l → x ∈ l → entryOf σ' x = entryOf σ x.
Proof. intros Hs Hx. unfold entryOf. by rewrite (Hs x Hx). Qed.

Lemma same_entries σ σ' l : same σ σ' l → map (entryOf σ') l = map (entryOf σ) l.
Proof.
  induction l as [|x l IH]; intros Hs; simpl; [done|]. f_equal.
  - apply (same_entryOf _ _ _ _ Hs). left.
  - apply IH. eapply same_weaken; [|exact Hs]. intros y Hy. by right.
Qed.

Lemma same_groups σ σ' gs :
  same σ σ' (concat gs) →
  map (map (entryOf σ')) gs = map (map (entryOf σ)) gs.
Proof.
  induction gs as [|g gs IH]; intros Hs; simpl; [done|]. f_equal.
  - apply same_entries. eapply same_weaken; [|exact Hs].
    intros y Hy. simpl. apply elem_of_app. by left.
  - apply IH. eapply same_weaken; [|exact Hs].
    intros y Hy. simpl. apply elem_of_app. by right.
Qed.

Lemma same_readable σ σ' l :
  same σ σ' l → Forall (readable σ) l → Forall (readable σ') l.
Proof.
  intros Hs Hr. apply Forall_forall. intros x Hx. unfold readable.
  rewrite (Hs x Hx). by apply (proj1 (Forall_forall _ _) Hr).
Qed.

(** Reading a reader to its end leaves the bytes of every file that does
    not hold that reader. *)
Lemma ReadAll_content σ r s l :
  content σ r = Some s → NoDup (extId r ++ ids l) →
  ∃ σ', ReadAll σ r = Ok (s, None, σ') ∧ same σ σ' l.
Proof.
  destruct r as [|id|unread]; simpl.
  - done.
  - destruct (σ !! id) as [st|] eqn:Hst; [|done].
    destruct (failure st) eqn:Hf; [done|]. intros [= <-] Hnd.
    apply NoDup_cons in Hnd as [Hid _].
    exists (<[id := mkReader "" None]> σ). split; [done|].
    intros x Hx. destruct (Body (file x)) as [|id'|] eqn:Hb; simpl; [done| |done].
    rewrite lookup_insert_ne; [done|].
    intros <-. apply Hid. by eapply elem_of_ids.
  - intros [= <-] _. exists σ. split; [done|apply same_refl].
Qed.

Lemma readable_bytes σ fv s : readable σ (setBody fv (BytesReader s)).
Proof. by exists s. Qed.

Lemma entryOf_setBody σ σ' fv s :
  content σ (Body (file fv)) = Some s →
  entryOf σ' (setBody fv (BytesReader s)) = entryOf σ fv.
Proof. intros Hc. unfold entryOf. simpl. by rewrite Hc. Qed.

Ltac nodup_from H :=
  eapply NoDup_sub; [|exact H]; simpl; rewrite ?ids_app; simpl;
  rewrite ?ids_app; solve_submseteq.

Ltac among := let y := fresh in let Hy := fresh in
  intros y Hy; revert Hy; simpl;
  repeat (rewrite elem_of_app || rewrite elem_of_cons || rewrite elem_of_nil);
  tauto.

(** The inner loop refines [place]. *)
Lemma scanGroups_refines gs : ∀ σ file pre frame,
  NoDup (ids (file :: pre ++ concat gs ++ frame)) →
  readable σ file →
  Forall (readable σ) (concat gs) →
  Forall (λ g, g ≠ []) gs →
  ∃ σ' file' gs' found,
    scanGroups σ file gs = Ok (σ', file', gs', found)
    ∧ place (entryOf σ file) (map (map (entryOf σ)) gs)
      = (map (map (entryOf σ')) gs', found)
    ∧ entryOf σ' file' = entryOf σ file
    ∧ readable σ' file'
    ∧ Forall (readable σ') (concat gs')
    ∧ Forall (λ g, g ≠ []) gs'
    ∧ same σ σ' (pre ++ frame)
    ∧ NoDup (ids (pre ++ concat gs'
                    ++ (if found : bool then [] else [file']) ++ frame)).
Proof.
  induction gs as [|g gs IH]; intros σ file pre frame Hnd Hrf Hrg Hne.
  { exists σ, file, [], false. simpl.
    split; [done|]. split; [done|]. split; [done|]. split; [done|].
    split; [done|]. split; [done|]. split; [apply same_refl|].
    nodup_from Hnd. }
  apply Forall_cons in Hne as [Hg Hne].
  destruct g as [|file2 others]; [done|]. clear Hg.
  simpl in Hrg. apply Forall_cons in Hrg as [Hr2 Hrg].
  apply Forall_app in Hrg as [Hro Hrg].
  simpl scanGroups.
  destruct (String.eqb (FileName (Graphql.file file)) (FileName (Graphql.file file2)))
    eqn:Hname.
  - destruct Hrf as [f1 Hf1]. destruct Hr2 as [f2 Hf2].
    destruct (ReadAll_content σ (Body (Graphql.file file)) f1
                (pre ++ (file2 :: others) ++ concat gs ++ frame) Hf1)
      as (σ1 & Hread1 & Hs1); [nodup_from Hnd|].
    assert (content σ1 (Body (Graphql.file file2)) = Some f2) as Hf2'.
    { rewrite (Hs1 file2); [done|]. rewrite !elem_of_app, elem_of_cons. tauto. }
    destruct (ReadAll_content σ1 (Body (Graphql.file file2)) f2
                (pre ++ others ++ concat gs ++ frame) Hf2')
      as (σ2 & Hread2 & Hs2); [nodup_from Hnd|].
    assert (same σ σ2 (pre ++ others ++ concat gs ++ frame)) as Hs.
    { eapply same_trans; [|exact Hs2]. eapply same_weaken; [|exact Hs1]. among. }
    rewrite Hread1. simpl. rewrite Hread2. simpl.
    set (file' := setBody file (BytesReader f1)).
    set (file2' := setBody file2 (BytesReader f2)).
    assert (entryOf σ2 file' = entryOf σ file) as He1
      by (by apply entryOf_setBody).
    assert (∀ σ', entryOf σ' file2' = entryOf σ file2) as He2
      by (by intros; apply entryOf_setBody).
    assert (sameFile (entryOf σ file) (entryOf σ file2) = String.eqb f1 f2) as Hsame.
    { unfold sameFile, entryOf. simpl. by rewrite Hname, Hf1, Hf2. }
    rewrite Hsame.
    destruct (String.eqb f1 f2) eqn:Hdata.
    + exists σ2, file', ((file2' :: others ++ [file']) :: gs), true.
      split; [done|]. split.
      { f_equal. simpl. f_equal.
        - rewrite He2. f_equal. rewrite map_app. simpl. rewrite He1. f_equal.
          symmetry. apply same_entries. eapply same_weaken; [|exact Hs]. among.
        - symmetry. apply same_groups. eapply same_weaken; [|exact Hs]. among. }
      split; [done|]. split; [apply readable_bytes|].
      split.
      { simpl. apply Forall_cons. split; [apply readable_bytes|].
        rewrite <- (assoc_L (++)). apply Forall_app. split.
        - eapply same_readable; [|exact Hro]. eapply same_weaken; [|exact Hs]. among.
        - apply Forall_cons. split; [apply readable_bytes|].
          eapply same_readable; [|exact Hrg]. eapply same_weaken; [|exact Hs]. among. }
      split; [by apply Forall_cons|].
      split; [eapply same_weaken; [|exact Hs]; among|].
      nodup_from Hnd.
    + destruct (IH σ2 file' (pre ++ file2' :: others) frame)
        as (σ3 & file'' & gs' & found & Hscan & Hplace & He & Hr' & Hrg' & Hne' & Hs3 & Hnd').
      { nodup_from Hnd. }
      { apply readable_bytes. }
      { eapply same_readable; [|exact Hrg]. eapply same_weaken; [|exact Hs]. among. }
      { done. }
      rewrite Hscan. simpl.
      exists σ3, file'', ((file2' :: others) :: gs'), found.
      split; [done|]. split.
      { rewrite He1 in Hplace.
        rewrite (same_groups σ σ2 gs) in Hplace
          by (eapply same_weaken; [|exact Hs]; among).
        rewrite Hplace. f_equal. simpl. f_equal. rewrite He2. f_equal.
        transitivity (map (entryOf σ2) others).
        - symmetry. apply same_entries. eapply same_weaken; [|exact Hs]. among.
        - symmetry. apply same_entries. eapply same_weaken; [|exact Hs3]. among. }
      split; [by rewrite He|]. split; [done|].
      split.
      { simpl. apply Forall_cons. split; [apply readable_bytes|].
        apply Forall_app. split; [|done].
        eapply same_readable; [|eapply same_readable; [|exact Hro]].
        - eapply same_weaken; [|exact Hs3]. among.
        - eapply same_weaken; [|exact Hs]. among. }
      split; [by apply Forall_cons|].
      split.
      { eapply same_trans.
        - eapply same_weaken; [|exact Hs]. among.
        - eapply same_weaken; [|exact Hs3]. among. }
      nodup_from Hnd'.
  - destruct (IH σ file (pre ++ file2 :: others) frame)
      as (σ3 & file'' & gs' & found & Hscan & Hplace & He & Hr' & Hrg' & Hne' & Hs3 & Hnd').
    { nodup_from Hnd. }
    { done. }
    { done. }
    { done. }
    rewrite Hscan. simpl.
    exists σ3, file'', ((file2 :: others) :: gs'), found.
    split; [done|]. split.
    { assert (sameFile (entryOf σ file) (entryOf σ file2) = false) as ->.
      { unfold sameFile, entryOf. simpl. by rewrite Hname. }
      assert (map (entryOf σ3) (file2 :: others)
              = map (entryOf σ) (file2 :: others)) as Hm.
      { apply same_entries. eapply same_weaken; [|exact Hs3]. among. }
      rewrite Hplace. simpl in Hm |- *. by rewrite Hm. }
    split; [done|]. split; [done|].
    split.
    { simpl. apply Forall_cons. split.
      - unfold readable. rewrite (Hs3 file2); [exact Hr2|].
        rewrite !elem_of_app, elem_of_cons. tauto.
      - apply Forall_app. split; [|done].
        eapply same_readable; [|exact Hro]. eapply same_weaken; [|exact Hs3]. among. }
    split; [by apply Forall_cons|].
    split; [eapply same_weaken; [|exact Hs3]; among|].
    nodup_from Hnd'.
Unshelve. all: try done.
Qed.

(** The outer loop refines the fold of [addEntry]. *)
Lemma groupFiles_refines fvs : ∀ σ gs,
  NoDup (ids (concat gs ++ fvs)) →
  Forall (readable σ) (concat gs ++ fvs) →
  Forall (λ g, g ≠ []) gs →
  ∃ σ' gs',
    groupFiles σ fvs gs = Ok (σ', gs')
    ∧ map (map (entryOf σ')) gs'
      = foldl addEntry (map (map (entryOf σ)) gs) (map (entryOf σ) fvs)
    ∧ NoDup (ids (concat gs'))
    ∧ Forall (readable σ') (concat gs')
    ∧ Forall (λ g, g ≠ []) gs'.
Proof.
  induction fvs as [|file rest IH]; intros σ gs Hnd Hr Hne.
  { exists σ, gs. rewrite app_nil_r in Hnd, Hr. by simpl. }
  apply Forall_app in Hr as [Hrg [Hrf Hrr]%Forall_cons].
  destruct (scanGroups_refines gs σ file [] rest)
    as (σ1 & file' & gs1 & found & Hscan & Hplace & He & Hr' & Hrg' & Hne' & Hs & Hnd');
    [nodup_from Hnd|done..|].
  simpl in Hs, Hnd'.
  set (gs2 := if found then gs1 else gs1 ++ [[file']]).
  assert (concat gs2 ++ rest
          = concat gs1 ++ (if found then [] else [file']) ++ rest) as Hcat.
  { unfold gs2. destruct found; [done|].
    rewrite concat_app. simpl. by rewrite <- (assoc_L (++)). }
  destruct (IH σ1 gs2) as (σ' & gs' & Hgroup & Hmap & Hnd2 & Hr2 & Hne2).
  { by rewrite Hcat. }
  { rewrite Hcat. apply Forall_app. split; [done|]. apply Forall_app. split.
    - destruct found; [constructor|by apply Forall_singleton].
    - by eapply same_readable. }
  { unfold gs2. destruct found; [done|]. apply Forall_app. split; [done|].
    by apply Forall_singleton. }
  exists σ', gs'. split.
  { simpl. rewrite Hscan. simpl. exact Hgroup. }
  split; [|done]. rewrite Hmap. simpl. f_equal.
  - unfold addEntry. rewrite Hplace. unfold gs2. destruct found; [done|].
    rewrite map_app. simpl. by rewrite He.
  - by apply same_entries.
Qed.

(** The last loop writes the parts of the groups. *)
Lemma writeFiles_refines gs : ∀ σ i,
  NoDup (ids (concat gs)) →
  Forall (readable σ) (concat gs) →
  Forall (λ g, g ≠ []) gs →
  writeFiles σ i gs = Ok (partsOf i (map (map (entryOf σ)) gs)).
Proof.
  induction gs as [|g gs IH]; intros σ i Hnd Hr Hne; [done|].
  apply Forall_cons in Hne as [Hg Hne].
  destruct g as [|file0 others]; [done|]. clear Hg.
  simpl in Hr. apply Forall_cons in Hr as [[b Hb] Hr].
  destruct (ReadAll_content σ (Body (Graphql.file file0)) b
              (others ++ concat gs) Hb) as (σ' & Hread & Hs);
    [nodup_from Hnd|].
  simpl. rewrite Hread. simpl.
  rewrite (IH σ' (S i)).
  - rewrite (same_groups σ σ' gs)
      by (eapply same_weaken; [|exact Hs]; among).
    simpl. by rewrite Hb.
  - nodup_from Hnd.
  - eapply same_readable; [|apply Forall_app in Hr as [_ Hr]; exact Hr].
    eapply same_weaken; [|exact Hs]. among.
  - done.
Qed.

Lemma mapKey_entryOf σ gs :
  map (map path) (map (map (entryOf σ)) gs) = map (map mapKey) gs.
Proof.
  induction gs as [|g gs IH]; simpl; [done|]. f_equal; [|done].
  induction g as [|x g IHg]; simpl; [done|]. by f_equal.
Qed.

(** The upload request is the one the grouping of the specification
    describes: the [map] field renders groups that list the paths of its
    groups, and the parts are those of its groups. *)
Lemma createUploadFileRequest_refines {D : Type} (c : client D) (req : Request)
    (σ : Store) (r0 : HttpRequest) (fvs : list fileVariable) :
  NewRequest MethodPost (RawTarget (endpoint c)) NoBody = Ok r0 →
  findFiles "variables" (ValueOf (Variables req)) = Ok fvs →
  NoDup (ids fvs) →
  Forall (readable σ) fvs →
  ∃ filesGroup,
    createUploadFileRequest c req σ =
      Ok (setHeader "Content-Type" FormDataContentType
            (setRequestBody
               (MultipartBody
                  (WriteField "operations" (Marshal_Request req)
                   :: WriteField "map" (mapData filesGroup)
                   :: partsOf 0 (grouping (map (entryOf σ) fvs))))
               r0))
    ∧ map (map mapKey) filesGroup
      = map (map path) (grouping (map (entryOf σ) fvs)).
Proof.
  intros Hn Hf Hnd Hr.
  destruct (groupFiles_refines fvs σ []) as (σ' & gs' & Hg & Hmap & Hnd' & Hr' & Hne');
    [done..|constructor|].
  exists gs'. split.
  - unfold createUploadFileRequest. rewrite Hn, Hf. simpl. rewrite Hg. simpl.
    rewrite (writeFiles_refines gs' σ' 0 Hnd' Hr' Hne'). simpl.
    by rewrite Hmap.
  - unfold grouping. simpl in Hmap. by rewrite <- Hmap, mapKey_entryOf.
Qed.

Lemma partsOf_lookup G : ∀ i k h t,
  Forall (λ g, g ≠ []) G →
  G !! k = Some (h :: t) →
  length (partsOf i G) = length G
  ∧ partsOf i G !! k =
      Some (mkPart (Itoa (i + k))
              (if String.eqb (TrimSpace (name h)) "" then None
               else Some (TrimSpace (name h)))
              (Some (DetectContentType (data h))) (data h)).
Proof.
  induction G as [|g G IH]; intros i k h t Hne Hk; [done|].
  apply Forall_cons in Hne as [Hg Hne].
  destruct g as [|h0 t0]; [done|]. simpl.
  destruct k as [|k]; simpl in Hk.
  - injection Hk as -> ->. rewrite Nat.add_0_r. split; [|done].
    f_equal. clear -Hne. revert i.
    induction G as [|g G IHG]; intros i; [done|].
    apply Forall_cons in Hne as [Hg Hne]. destruct g; [done|].
    simpl. f_equal. by apply IHG.
  - destruct (IH (S i) k h t Hne Hk) as [Hlen Hpart]. split; [by f_equal|].
    simpl. by rewrite Hpart, Nat.add_succ_r.
Qed.

Lemma keyed_nonempty G : keyed G → Forall (λ g, g ≠ []) G.
Proof.
  intros [Hall _]. eapply Forall_impl; [exact Hall|].
  by intros g (h & t & -> & _).
Qed.

Lemma grouping_keyed es : keyed (grouping es).
Proof. unfold grouping. by destruct (foldl_addEntry es [] keyed_nil) as [? _]. Qed.

End Refinement.

(** ** Duplicates in an upload request *)
Section Duplicates.
Context `{GoLib} {D : Type}.


End Duplicates.

(** ** Closed examples on the reference instance *)
Section Closed.
Import Reference Examples.

(** C3: the status 201 is of the 2xx class and the body decodes with an
    error and data, yet the call returns the [TransportError] and the
    response object stays empty. *)
Lemma errors_list_lost_on_201 :
  is2xx 201 = true
  ∧ DecodeResponse (mkReader errorsBody None) emptyResponse = (decodedErrors, None)
  ∧ Errors decodedErrors ≠ []
  ∧ returned (MakeRequest (answering MethodPost 201 "201 Created"
                             (mkReader errorsBody None))
                None plainQuery emptyResponse ∅)
    = Err (TransportError "201 Created" errorsBody)
  ∧ response (MakeRequest (answering MethodPost 201 "201 Created"
                             (mkReader errorsBody None))
                None plainQuery emptyResponse ∅)
    = emptyResponse.
Proof. repeat split; try (vm_compute; reflexivity). discriminate. Qed.

(** A response of status 200 with data and one error. *)
Lemma errors_list_returned_on_200_witness :
  returned (MakeRequest (answering MethodPost 200 "200 OK"
                           (mkReader errorsBody None))
              None plainQuery emptyResponse ∅)
    = Err (GraphQLErrorList [ mkGqlError "boom" ])
  ∧ response (MakeRequest (answering MethodPost 200 "200 OK"
                             (mkReader errorsBody None))
                None plainQuery emptyResponse ∅)
    = decodedErrors
  ∧ Data (response (MakeRequest (answering MethodPost 200 "200 OK"
                                   (mkReader errorsBody None))
                      None plainQuery emptyResponse ∅))
    = partialData.
Proof.
  apply (errors_list_returned_on_200
           (answering MethodPost 200 "200 OK" (mkReader errorsBody None))
           None plainQuery emptyResponse ∅ postedQuery
           (mkHttpResponse 200 "200 OK" (mkReader errorsBody None))
           decodedErrors).
  - vm_compute. reflexivity.
  - vm_compute. reflexivity.
  - reflexivity.
  - vm_compute. reflexivity.
  - discriminate.
Defined.

(** C4: the status 204 is of the 2xx class, yet the call fails with a
    [TransportError]. *)
Lemma status_204_is_transport_error :
  is2xx 204 = true
  ∧ returned (MakeRequest (answering MethodPost 204 "204 No Content"
                             (mkReader "" None))
                None plainQuery emptyResponse ∅)
    = Err (TransportError "204 No Content" "").
Proof. split; vm_compute; reflexivity. Qed.

(** A response of status 404 whose body cannot be read. *)
Lemma transport_error_unless_200_witness :
  ((404 ≠ StatusOK)%Z →
   returned (MakeRequest (answering MethodPost 404 "404 Not Found"
                            (mkReader "" (Some "unexpected EOF")))
               None plainQuery emptyResponse ∅)
     = Err (TransportError "404 Not Found" "<unreadable: unexpected EOF>")
   ∧ response (MakeRequest (answering MethodPost 404 "404 Not Found"
                              (mkReader "" (Some "unexpected EOF")))
                 None plainQuery emptyResponse ∅)
     = emptyResponse)
  ∧ ((404 = StatusOK)%Z →
     ∀ status body,
       returned (MakeRequest (answering MethodPost 404 "404 Not Found"
                                (mkReader "" (Some "unexpected EOF")))
                   None plainQuery emptyResponse ∅)
       ≠ Err (TransportError status body)).
Proof.
  apply (transport_error_unless_200
           (answering MethodPost 404 "404 Not Found"
              (mkReader "" (Some "unexpected EOF")))
           None plainQuery emptyResponse ∅ postedQuery
           (mkHttpResponse 404 "404 Not Found"
              (mkReader "" (Some "unexpected EOF")))).
  - vm_compute. reflexivity.
  - vm_compute. reflexivity.
Defined.

(** C5: a GET client whose endpoint is no URL, given a mutation, returns
    the error of [url.Parse], not [UnsupportedOperation]. *)
Lemma mutation_on_broken_endpoint :
  method brokenGetClient = MethodGet
  ∧ HasPrefix (TrimSpace (Query mutationRequest)) "mutation" = true
  ∧ returned (MakeRequest brokenGetClient None mutationRequest emptyResponse ∅)
    = Err (URLError "missing protocol scheme")
  ∧ returned (MakeRequest brokenGetClient None mutationRequest emptyResponse ∅)
    ≠ Err UnsupportedOperation.
Proof. repeat split; try (vm_compute; reflexivity). discriminate. Qed.

(** A GET client with a well-formed endpoint, given a mutation. *)
Lemma get_refuses_mutation_witness :
  sent (MakeRequest getClient None mutationRequest emptyResponse ∅) = []
  ∧ is_ok (returned (MakeRequest getClient None mutationRequest emptyResponse ∅))
    = false
  ∧ (∀ parsedURL, url_Parse (endpoint getClient) = Ok parsedURL →
     returned (MakeRequest getClient None mutationRequest emptyResponse ∅)
     = Err UnsupportedOperation).
Proof.
  apply (get_refuses_mutation getClient None mutationRequest emptyResponse ∅).
  - reflexivity.
  - vm_compute. reflexivity.
Defined.


(** With the flag set, the GET client sends its one request and the call
    succeeds. *)
Example get_with_flag_sends_one :
  length (sent (MakeRequest getClient (Some 7) uploadingQuery emptyResponse ∅)) = 1
  ∧ returned (MakeRequest getClient (Some 7) uploadingQuery emptyResponse ∅)
    = Ok tt.
Proof. split; vm_compute; reflexivity. Qed.

(** C2: the wire value [null] carries no discriminator key, yet decoding
    it succeeds. *)
Lemma null_without_discriminator_decodes :
  json_Parse "null" = Ok JNull
  ∧ member "__typename" JNull = None
  ∧ __unmarshal Node None "null" = (None, Ok tt)
  ∧ (__unmarshal Node None "null").2 ≠ Err (MissingDiscriminator (GraphQLName Node)).
Proof. repeat split; try (vm_compute; reflexivity). discriminate. Qed.

Lemma Node_wellFormed : wellFormed Node.
Proof.
  split; simpl.
  - apply (bool_decide_unpack (NoDup [ "User"; "Bot" ])). vm_compute. exact I.
  - apply (bool_decide_unpack ("" ∉ [ "User"; "Bot" ])). vm_compute. exact I.
Qed.

(** The wire value of the user [Ada], decoded as a [Node]. *)
Lemma discriminator_selects_variant_witness :
  ("User" = "" →
   __unmarshal Node None adaText = (None, Err (MissingDiscriminator "Node")))
  ∧ ("User" ≠ "" → "User" ∉ map implGraphQLName (Implementations Node) →
     __unmarshal Node None adaText = (None, Err (UnknownVariant "QueryNode" "User")))
  ∧ (∀ impl, impl ∈ Implementations Node → implGraphQLName impl = "User" →
     __unmarshal Node None adaText =
       (Some (implGoName impl, (UnmarshalNew (implGoName impl) adaText).1),
        match (UnmarshalNew (implGoName impl) adaText).2 with
        | Some e => Err (JSONError e)
        | None => Ok tt
        end)).
Proof.
  apply (discriminator_selects_variant Node None adaText adaMembers "User").
  - exact Node_wellFormed.
  - vm_compute. reflexivity.
  - vm_compute. reflexivity.
  - apply (discriminator_present [] "__typename" "User"
             [ ("id", JStr "1"); ("name", JStr "Ada") ]).
    + constructor.
    + vm_compute. reflexivity.
    + repeat constructor.
Defined.

(** The example of the specification: [User] decodes to the variant of
    [User], [Robot] is an unknown variant, and an object without the key is
    missing its discriminator. *)
Example Node_decoding :
  __unmarshal Node None adaText = (Some ("QueryNodeUser", JObj adaMembers), Ok tt)
  ∧ __unmarshal Node None (render (JObj [ ("__typename", JStr "Robot") ]))
    = (None, Err (UnknownVariant "QueryNode" "Robot"))
  ∧ __unmarshal Node None (render (JObj [ ("id", JStr "1") ]))
    = (None, Err (MissingDiscriminator "Node")).
Proof. repeat split; vm_compute; reflexivity. Qed.




(** The same two files under one file name: one part, and both paths
    under its index. *)
Example same_bytes_same_name_one_part :
  createUploadFileRequest postClient (uploadRequest "a.txt" "a.txt") twoReaders
  = Ok (multipart
          [ WriteField "operations"
              (Marshal_Request (uploadRequest "a.txt" "a.txt"));
            WriteField "map"
              (render (JObj [ ("0", JArr [ JStr "variables.a";
                                           JStr "variables.b" ]) ]));
            filePart "0" "a.txt" ]).
Proof. vm_compute. reflexivity. Qed.

(** When the two uploads hold one reader, the second read of it finds it
    at its end: two parts are written, and the first has lost its bytes. *)
Example shared_reader_two_parts :
  createUploadFileRequest postClient
    (mkRequest "mutation Up($a: Upload!, $b: Upload!) { up(a: $a, b: $b) }"
       (Some (VPtr (Some (VStruct
          [ (mkField "A" "a", VUpload (mkUpload "a.txt" (ExtReader 0)));
            (mkField "B" "b", VUpload (mkUpload "a.txt" (ExtReader 0))) ]))))
       "Up" true)
    twoReaders
  = Ok (multipart
          [ WriteField "operations"
              (Marshal_Request (uploadRequest "a.txt" "a.txt"));
            WriteField "map"
              (render (JObj [ ("0", JArr [ JStr "variables.a" ]);
                              ("1", JArr [ JStr "variables.b" ]) ]));
            mkPart "0" (Some "a.txt") (Some "text/plain; charset=utf-8") "";
            filePart "1" "a.txt" ]).
Proof. vm_compute. reflexivity. Qed.

(** A request with variables that hold no file: the [map] field is
    empty. *)
Example upload_without_files_body :
  createUploadFileRequest postClient
    (mkRequest "query Q($n: Int!) { q(n: $n) }"
       (Some (VPtr (Some (VStruct [ (mkField "N" "n", VInt 3) ])))) "Q" true) ∅
  = Ok (multipart
          [ WriteField "operations"
              (render (JObj [ ("query", JStr "query Q($n: Int!) { q(n: $n) }");
                              ("variables", JObj [ ("n", JNum 3) ]);
                              ("operationName", JStr "Q");
                              ("UploadFile", JBool true) ]));
            WriteField "map" "" ]).
Proof. vm_compute. reflexivity. Qed.

End Closed.

(** ** Further properties of [MakeRequest] *)
Section Calls.
Context `{GoLib} `{!Decoder} {D : Type} `{!Doer D}.

Lemma sent_is_prepared c ctx req resp σ r :
  r ∈ sent (MakeRequest c ctx req resp σ) →
  ∃ h, buildRequest c req σ = Ok h ∧ r = prepareRequest c ctx req h.
Proof.
  unfold MakeRequest.
  destruct (buildRequest c req σ) as [h|e|msg]; simpl;
    [|by intros ?%elem_of_nil..].
  intros Hr. exists h. split; [done|].
  destruct (Do _ _); [destruct (handleResponse _ _)|..];
    by apply list_elem_of_singleton in Hr.
Qed.

(** X1.  [MakeRequest] hands at most one request to [Do], and that request
    is the built one with its header and context set; when no request can
    be built, [Do] is not called, the response object is left as it was
    and the call does not succeed. *)
Theorem MakeRequest_calls_Do_at_most_once c ctx req resp σ :
  (length (sent (MakeRequest c ctx req resp σ)) ≤ 1)%nat
  ∧ (∀ r, r ∈ sent (MakeRequest c ctx req resp σ) →
     ∃ h, buildRequest c req σ = Ok h ∧ r = prepareRequest c ctx req h)
  ∧ (is_ok (buildRequest c req σ) = false →
     sent (MakeRequest c ctx req resp σ) = []
     ∧ response (MakeRequest c ctx req resp σ) = resp
     ∧ is_ok (returned (MakeRequest c ctx req resp σ)) = false).
Proof.
  unfold MakeRequest.
  destruct (buildRequest c req σ) as [h|e|msg]; simpl.
  - split; [|split; [|done]].
    + destruct (Do _ _); [destruct (handleResponse _ _)|..]; simpl; lia.
    + intros r Hr. exists h. split; [done|].
      destruct (Do _ _); [destruct (handleResponse _ _)|..];
        by apply list_elem_of_singleton in Hr.
  - split; [lia|]. split; [by intros r ?%elem_of_nil|done].
  - split; [lia|]. split; [by intros r ?%elem_of_nil|done].
Qed.

(** X2.  The response object of the caller is written only by the decoder,
    and only for a response of status 200: after any other call it is the
    object that was passed in. *)
Theorem response_written_only_on_200 c ctx req resp σ :
  response (MakeRequest c ctx req resp σ) = resp
  ∨ ∃ h httpResp,
      buildRequest c req σ = Ok h
      ∧ Do (httpClient c) (prepareRequest c ctx req h) = Ok httpResp
      ∧ StatusCode httpResp = StatusOK
      ∧ response (MakeRequest c ctx req resp σ)
        = (DecodeResponse (respBody httpResp) resp).1.
Proof.
  unfold MakeRequest.
  destruct (buildRequest c req σ) as [h|e|msg] eqn:Hb; simpl; [|by left..].
  destruct (Do _ _) as [httpResp|e|msg] eqn:Hd; simpl; [|by left..].
  destruct (Z.eq_dec (StatusCode httpResp) StatusOK) as [Hs|Hs].
  - right. exists h, httpResp. repeat split; try done.
    rewrite (handleResponse_ok _ _ Hs).
    destruct (DecodeResponse (respBody httpResp) resp) as [resp' [e|]]; simpl;
      [done|]. by case_decide.
  - left. by rewrite (handleResponse_not_ok _ _ Hs).
Qed.

(** X3.  [MakeRequest] returns a nil error exactly when a request was
    built, [Do] answered it with status 200, the body decoded without
    error and the decoded [errors] list is empty; the response object is
    then the decoded one. *)
Theorem MakeRequest_succeeds_iff c ctx req resp σ :
  returned (MakeRequest c ctx req resp σ) = Ok tt
  ↔ ∃ h httpResp resp',
      buildRequest c req σ = Ok h
      ∧ Do (httpClient c) (prepareRequest c ctx req h) = Ok httpResp
      ∧ StatusCode httpResp = StatusOK
      ∧ DecodeResponse (respBody httpResp) resp = (resp', None)
      ∧ Errors resp' = []
      ∧ response (MakeRequest c ctx req resp σ) = resp'.
Proof.
  split.
  - unfold MakeRequest.
    destruct (buildRequest c req σ) as [h|e|msg] eqn:Hb; simpl; [|done..].
    destruct (Do _ _) as [httpResp|e|msg] eqn:Hd; simpl; [|done..].
    destruct (Z.eq_dec (StatusCode httpResp) StatusOK) as [Hs|Hs].
    + rewrite (handleResponse_ok _ _ Hs).
      destruct (DecodeResponse (respBody httpResp) resp) as [resp' [e|]] eqn:Hdec;
        simpl; [done|].
      case_decide as Hlen; simpl; [done|]. intros _.
      exists h, httpResp, resp'. repeat split; try done.
      destruct (Errors resp'); [done|simpl in Hlen; lia].
    + by rewrite (handleResponse_not_ok _ _ Hs).
  - intros (h & httpResp & resp' & Hb & Hd & Hs & Hdec & Herr & _).
    rewrite (MakeRequest_answered _ _ _ _ _ _ _ Hb Hd). simpl.
    rewrite (handleResponse_ok _ _ Hs), Hdec, Herr.
    case_decide as Hl; [simpl in Hl; lia|done].
Qed.

Lemma NewRequest_ok method target body :
  http_NewRequest_error method target = None →
  NewRequest method target body = Ok (mkHttpRequest _ method target [] body None).
Proof. intros Hn. unfold NewRequest. by rewrite Hn. Qed.

(** X4.  A client made by [NewClient] sends a request without the upload
    flag as one POST to the endpoint as given, with the serialized request
    as body, the JSON content type as its only header and the context of
    the caller; when [http.NewRequest] refuses the endpoint, nothing is
    sent and its error is returned. *)
Theorem NewClient_posts_json (DefaultClient : D) (endpoint : string)
    (httpClient : option D) ctx req resp σ :
  UploadFile req = false →
  match http_NewRequest_error MethodPost (RawTarget endpoint) with
  | None =>
      sent (MakeRequest (NewClient DefaultClient endpoint httpClient) ctx req resp σ)
      = [ mkHttpRequest _ MethodPost (RawTarget endpoint)
            [ ("Content-Type", "application/json") ]
            (BytesBody (Marshal_Request req)) ctx ]
  | Some e =>
      sent (MakeRequest (NewClient DefaultClient endpoint httpClient) ctx req resp σ)
      = []
      ∧ returned (MakeRequest (NewClient DefaultClient endpoint httpClient)
                    ctx req resp σ)
        = Err (NewRequestError e)
  end.
Proof.
  intros Hup. unfold MakeRequest, buildRequest, createPostRequest, NewRequest.
  simpl. rewrite Hup.
  destruct (http_NewRequest_error MethodPost (RawTarget endpoint)); [done|].
  unfold prepareRequest. rewrite Hup. simpl.
  destruct ctx; simpl;
    (destruct (Do _ _); [destruct (handleResponse _ _)|..]; done).
Qed.

Lemma writeFiles_parts gs : ∀ σ i parts,
  writeFiles σ i gs = Ok parts →
  length parts = length gs
  ∧ ∀ k p, parts !! k = Some p →
      partName p = Itoa (i + k)
      ∧ partContentType p = Some (DetectContentType (partData p)).
Proof.
  induction gs as [|g gs IH]; intros σ i parts; simpl.
  - intros [= <-]. split; [done|]. by intros k p ?.
  - destruct g as [|file0 others]; [done|].
    destruct (ReadAll σ (Body (file file0))) as [[[b err] σ']| |]; simpl; [|done..].
    destruct err; [done|].
    destruct (writeFiles σ' (S i) gs) as [rest| |] eqn:Hw; simpl; [|done..].
    intros [= <-]. destruct (IH _ _ _ Hw) as [Hlen Hparts].
    split; [simpl; by f_equal|].
    intros [|k] p; simpl.
    + intros [= <-]. simpl. by rewrite Nat.add_0_r.
    + intros Hk. destruct (Hparts k p Hk) as [-> ->].
      split; [f_equal; lia|done].
Qed.

(** X5.  On a client whose method is not GET, a request with the upload
    flag is sent as a POST, whatever the method of the client, with the
    multipart content type and not the JSON one; its body starts with the
    [operations] field, holding the serialized request, and the [map]
    field, and every part after them is named by its index and carries
    the content type detected from its own content. *)
Theorem upload_request_shape c ctx req resp σ :
  method c ≠ MethodGet →
  UploadFile req = true →
  ∀ r, r ∈ sent (MakeRequest c ctx req resp σ) →
    reqMethod r = MethodPost
    ∧ reqTarget r = RawTarget (endpoint c)
    ∧ reqHeader r = [ ("Content-Type", FormDataContentType) ]
    ∧ reqContext r = ctx
    ∧ ∃ mapText files,
        reqBody r = MultipartBody
                      (WriteField "operations" (Marshal_Request req)
                       :: WriteField "map" mapText :: files)
        ∧ ∀ k p, files !! k = Some p →
            partName p = Itoa k
            ∧ partContentType p = Some (DetectContentType (partData p)).
Proof.
  intros Hm Hup r Hr.
  destruct (sent_is_prepared _ _ _ _ _ _ Hr) as (h & Hb & ->). clear Hr.
  unfold buildRequest in Hb.
  destruct (String.eqb_spec (method c) MethodGet) as [Heq|_]; [done|].
  rewrite Hup in Hb. unfold createUploadFileRequest in Hb.
  destruct (NewRequest MethodPost (RawTarget (endpoint c)) NoBody)
    as [r0| |] eqn:Hn; [|done..].
  unfold NewRequest in Hn.
  destruct (http_NewRequest_error _ _); [done|]. injection Hn as <-.
  destruct (findFiles "variables" (ValueOf (Variables req))) as [fvs| |];
    simpl in Hb; [|done..].
  destruct (groupFiles σ fvs []) as [[σ' gs]| |]; simpl in Hb; [|done..].
  destruct (writeFiles σ' 0 gs) as [files| |] eqn:Hw; simpl in Hb; [|done..].
  injection Hb as <-.
  unfold prepareRequest. rewrite Hup.
  destruct (String.eqb_spec (method c) MethodGet) as [Heq|_]; [done|]. simpl.
  destruct (writeFiles_parts _ _ _ _ Hw) as [_ Hparts].
  destruct ctx; simpl; repeat split; try done;
    exists (mapData gs), files; (split; [done|exact Hparts]).
Qed.

End Calls.

(** ** The parameters of a GET request *)
Section GetParameters.
Context `{GoLib} {D : Type}.

Lemma valuesOf_Set k k' v q :
  valuesOf k (Set_ k' v q) = if String.eqb k k' then Some [v] else valuesOf k q.
Proof.
  induction q as [|[k0 vs] q IH]; simpl.
  - done.
  - destruct (String.eqb_spec k' k0) as [->|Hne]; simpl.
    + by destruct (String.eqb k k0).
    + destruct (String.eqb_spec k k0) as [->|Hne'].
      * by destruct (String.eqb_spec k0 k').
      * done.
Qed.

Lemma NewRequest_inv method target body r :
  NewRequest method target body = Ok r →
  r = mkHttpRequest _ method target [] body None.
Proof.
  unfold NewRequest. destruct (http_NewRequest_error method target); [done|].
  by intros [= <-].
Qed.

(** X6.  A GET request that is built is a request without body for the
    parsed endpoint.  When the query text, the operation name and the
    variables are all empty the URL is left untouched; otherwise each of
    the three that is present replaces the values of [query],
    [operationName] and [variables] (the variables as their JSON text),
    and every other parameter of the endpoint is kept. *)
Theorem get_request_parameters (c : client D) (req : Request) (r : HttpRequest) :
  createGetRequest c req = Ok r →
  ∃ u,
    url_Parse (endpoint c) = Ok u
    ∧ reqMethod r = method c ∧ reqBody r = NoBody ∧ reqContext r = None
    ∧ (Query req = "" → OpName req = "" → Variables req = None →
       reqTarget r = ParsedTarget u None)
    ∧ (Query req ≠ "" ∨ OpName req ≠ "" ∨ Variables req ≠ None →
       ∃ q, reqTarget r = ParsedTarget u (Some q)
            ∧ ∀ k, valuesOf k q = parameterOf req (url_Query u) k).
Proof.
  unfold createGetRequest.
  destruct (url_Parse (endpoint c)) as [u| |]; [|done..].
  destruct (_ && _); [done|].
  intros Hr. exists u. split; [done|].
  unfold parameterOf.
  destruct (String.eqb_spec (Query req) "") as [Hq|Hq];
  destruct (String.eqb_spec (OpName req) "") as [Ho|Ho];
  destruct (Variables req) as [v|] eqn:Hv; simpl in Hr;
    (match type of Hr with context [NewRequest ?m ?t ?b] =>
       destruct (NewRequest m t b) as [r'| |] eqn:HN; [|done..] end);
    injection Hr as <-; apply NewRequest_inv in HN as ->; simpl;
    (split; [done|]); (split; [done|]); (split; [done|]);
    (split; [try done|]);
    try (intros _; eexists; split; [reflexivity|]; intros k;
         rewrite ?valuesOf_Set; simpl;
         rewrite ?andb_true_r, ?andb_false_r; reflexivity).
  intros [?|[?|?]]; done.
Qed.

End GetParameters.

(** ** Further properties of the [__unmarshal] helper *)
Section Variants.
Context {V : Type} `{!JsonText V}.

Lemma selectCase_some T tn impl :
  selectCase T tn = Some impl →
  impl ∈ Implementations T ∧ implGraphQLName impl = tn.
Proof.
  unfold selectCase. intros Hf. apply find_some in Hf as [Hin Heq].
  split; [by apply list_elem_of_In|]. symmetry. by apply String.eqb_eq.
Qed.

(** X7.  The helper changes the target only when the discriminator names
    a possible type, and then into a value of that type's variant: after
    every other call, failed or not, the target is what it was. *)
Theorem unmarshal_target_changes_only_to_variant (T : InterfaceType)
    (v : option (string * V)) (m : string) :
  (__unmarshal T v m).1 = v
  ∨ ∃ impl,
      impl ∈ Implementations T
      ∧ UnmarshalTypeName m = Ok (implGraphQLName impl)
      ∧ (__unmarshal T v m).1
        = Some (implGoName impl, (UnmarshalNew (implGoName impl) m).1).
Proof.
  unfold __unmarshal. destruct (String.eqb m "null"); [by left|].
  destruct (UnmarshalTypeName m) as [tn| |] eqn:Htn; [|by left..].
  destruct (selectCase T tn) as [impl|] eqn:Hsel.
  - right. exists impl. apply selectCase_some in Hsel as [Hin <-].
    split; [done|]. split; [done|].
    by destruct (UnmarshalNew (implGoName impl) m).
  - left. by destruct (String.eqb tn "").
Qed.

(** X8.  The helper returns a nil error only for the wire value [null],
    or when the discriminator names a possible type and the wire value
    decodes into that type's variant without error. *)
Theorem unmarshal_succeeds_only_on_null_or_variant (T : InterfaceType)
    (v : option (string * V)) (m : string) :
  (__unmarshal T v m).2 = Ok tt →
  (m = "null" ∧ (__unmarshal T v m).1 = v)
  ∨ ∃ impl,
      impl ∈ Implementations T
      ∧ UnmarshalTypeName m = Ok (implGraphQLName impl)
      ∧ (UnmarshalNew (implGoName impl) m).2 = None
      ∧ (__unmarshal T v m).1
        = Some (implGoName impl, (UnmarshalNew (implGoName impl) m).1).
Proof.
  unfold __unmarshal. destruct (String.eqb_spec m "null") as [->|_]; [by left|].
  destruct (UnmarshalTypeName m) as [tn| |] eqn:Htn; [|done..].
  destruct (selectCase T tn) as [impl|] eqn:Hsel.
  - apply selectCase_some in Hsel as [Hin <-].
    destruct (UnmarshalNew (implGoName impl) m) as [x [e|]] eqn:Hu; [done|].
    intros _. right. exists impl. by rewrite Hu.
  - by destruct (String.eqb tn "").
Qed.

(** X9.  A wire value other than the text [null] that is no JSON object
    never reaches a variant.  A text that is no JSON, and a JSON string,
    number, boolean or array, fail with the error of [json.Unmarshal]; a
    [null] written with white space around it fails with
    [MissingDiscriminator].  The target is left as it was. *)
Theorem unmarshal_rejects_non_objects (T : InterfaceType)
    (v : option (string * V)) (m : string) :
  String.eqb m "null" = false →
  match json_Parse m with
  | Err e => __unmarshal T v m = (v, Err (JSONError e))
  | Ok JNull =>
      selectCase T "" = None →
      __unmarshal T v m = (v, Err (MissingDiscriminator (GraphQLName T)))
  | Ok (JObj _) => True
  | Ok _ => ∃ e, __unmarshal T v m = (v, Err (JSONError e))
  | Panic _ => True
  end.
Proof.
  intros Hnull. unfold __unmarshal, UnmarshalTypeName. rewrite Hnull.
  destruct (json_Parse m) as [j| |]; simpl; [|done..].
  destruct j; simpl; try done; try (by eexists).
  by intros ->.
Qed.

Lemma decodeTypeName_saved ms : ∀ tn e,
  ∃ e', (decodeTypeName ms tn (Some e)).2 = Some e'.
Proof.
  induction ms as [|[k x] ms IH]; intros tn e; simpl; [by eexists|].
  destruct (isTypeNameKey k); [|apply IH].
  destruct x; simpl; apply IH.
Qed.

Lemma decodeTypeName_bad ms : ∀ tn saved,
  Exists badDiscriminator ms →
  ∃ e, (decodeTypeName ms tn saved).2 = Some e.
Proof.
  induction ms as [|[k x] ms IH]; intros tn saved Hex.
  - by apply Exists_nil in Hex.
  - apply Exists_cons in Hex as [[Hk Hx]|Hex]; simpl in *.
    + rewrite Hk. destruct x; try done; simpl;
        destruct saved; apply decodeTypeName_saved.
    + destruct (isTypeNameKey k); [|by apply IH].
      destruct x; by apply IH.
Qed.

(** X10.  A wire object in which a discriminator key holds something
    other than a string or [null] fails with the error of
    [json.Unmarshal], whatever its other members are, and the target is
    left as it was. *)
Theorem unmarshal_rejects_ill_typed_discriminator (T : InterfaceType)
    (v : option (string * V)) (m : string) (ms : list (string * json)) :
  String.eqb m "null" = false →
  json_Parse m = Ok (JObj ms) →
  Exists badDiscriminator ms →
  ∃ e, __unmarshal T v m = (v, Err (JSONError e)).
Proof.
  intros Hnull Hp Hbad. unfold __unmarshal, UnmarshalTypeName.
  rewrite Hnull, Hp. simpl.
  destruct (decodeTypeName_bad ms "" None Hbad) as [e He].
  destruct (decodeTypeName ms "" None) as [tn saved]. simpl in He. subst saved.
  by exists e.
Qed.

End Variants.

(** ** Further properties of [findFiles] *)
Section Paths.

Lemma append_assoc (a b c : string) : (a +:+ b) +:+ c = a +:+ (b +:+ c).
Proof.
  induction a as [|x a IH]; [done|].
  change (String.String x ((a +:+ b) +:+ c) = String.String x (a +:+ (b +:+ c))).
  by rewrite IH.
Qed.

Lemma append_empty_r (a : string) : a +:+ "" = a.
Proof.
  induction a as [|x a IH]; [done|].
  change (String.String x (a +:+ "") = String.String x a). by rewrite IH.
Qed.

Lemma bare_tag_no_options t : tagName t = t → tagOptions t = "".
Proof.
  induction t as [|c t IH]; simpl; [done|].
  destruct (Ascii.eqb c ","%char); [done|]. intros [= Ht]. by apply IH.
Qed.

Lemma findFilesIn_nonempty_value (d : bool) (key : string) (v : Value) :
  findFilesIn d key v ≠ [] → isEmptyValue v = false.
Proof.
  destruct v as [[e|]|u|fields|[l|]|l|s|z|b|[e|]]; simpl; try done;
    destruct l; done.
Qed.

(** X11.  When the struct fields of the variables carry bare tags, every
    path [findFiles] collects is the parent key followed by a dotted path
    that leads, in the serialized variables, to a [null]: the placeholder
    the upload leaves in the [operations] field. *)
Theorem collected_paths_lead_to_null :
  ∀ (v : Value) (d : bool) (key : string) (fv : fileVariable),
    bareTags v = true →
    fv ∈ findFilesIn d key v →
    ∃ suffix, mapKey fv = key +:+ suffix ∧ placeAt (toJSON v) suffix JNull.
Proof.
  fix IH 1.
  intros [[e|]|u|fields|[l|]|l|s|z|b|[e|]] d key fv Hbare Hin;
    simpl in Hin; try (by apply elem_of_nil in Hin).
  - destruct d; [by apply elem_of_nil in Hin|].
    simpl in Hbare. destruct (IH e true key fv Hbare Hin) as (sfx & Hk & Hp).
    by exists sfx.
  - apply list_elem_of_singleton in Hin as ->. exists "".
    split; [by rewrite append_empty_r|constructor].
  - simpl toJSON.
    assert (∃ k x rest, mapKey fv = key +:+ "." +:+ k +:+ rest
              ∧ (k, x) ∈ (fix members (fs : list (StructField * Value)) :=
                   match fs with
                   | [] => []
                   | (f, x) :: rest =>
                       if String.eqb (Tag f) "-" then members rest
                       else if Contains (tagOptions (Tag f)) "omitempty"
                                 && isEmptyValue x
                            then members rest
                            else (wireKey f, toJSON x) :: members rest
                   end) fields
              ∧ placeAt x rest JNull) as (k & x & rest & Hk & Hm & Hp).
    { simpl in Hbare. revert Hbare Hin.
      induction fields as [|[f x] fields IHf]; intros Hbare Hin.
      - by apply elem_of_nil in Hin.
      - apply andb_true_iff in Hbare as [Hbare Hrest].
        apply andb_true_iff in Hbare as [Hbare Hx].
        apply andb_true_iff in Hbare as [Htag Hdash].
        apply String.eqb_eq in Htag. apply negb_true_iff in Hdash.
        rewrite Hdash, (bare_tag_no_options _ Htag). simpl.
        apply elem_of_app in Hin as [Hin|Hin].
        + destruct (IH x false _ fv Hx Hin) as (sfx & Hk & Hp).
          exists (wireKey f), (toJSON x), sfx. split; [|split; [left|done]].
          rewrite Hk. unfold wireKey. rewrite Htag.
          destruct (String.eqb (Tag f) ""); simpl;
            by rewrite ?Hdash, ?append_assoc.
        + destruct (IHf Hrest Hin) as (k & y & rest & Hk & Hm & Hp).
          exists k, y, rest. split; [done|]. split; [by right|done]. }
    exists ("." +:+ k +:+ rest). split; [by rewrite Hk|].
    by apply placeAt_member with x.
  - simpl toJSON.
    assert (∀ i, fv ∈ (fix each (i : nat) (es : list Value) : list fileVariable :=
                         match es with
                         | [] => []
                         | elem :: rest =>
                             findFilesIn false (key +:+ "." +:+ Itoa i) elem
                             ++ each (S i) rest
                         end) i l →
                 ∃ n x rest, mapKey fv = key +:+ "." +:+ Itoa (i + n) +:+ rest
                   ∧ map toJSON l !! n = Some x ∧ placeAt x rest JNull) as Hl.
    { simpl in Hbare. clear Hin. revert Hbare.
      induction l as [|x l IHl]; intros Hbare i Hin.
      - by apply elem_of_nil in Hin.
      - simpl in Hbare. apply andb_true_iff in Hbare as [Hx Hrest].
        apply elem_of_app in Hin as [Hin|Hin].
        + destruct (IH x false _ fv Hx Hin) as (sfx & Hk & Hp).
          exists 0, (toJSON x), sfx. rewrite Nat.add_0_r.
          split; [by rewrite Hk, ?append_assoc|done].
        + destruct (IHl Hrest (S i) Hin) as (n & y & rest & Hk & Hm & Hp).
          exists (S n), y, rest. rewrite Nat.add_succ_r. done. }
    destruct (Hl 0 Hin) as (n & x & rest & Hk & Hm & Hp).
    exists ("." +:+ Itoa n +:+ rest). split; [by rewrite Hk|].
    by apply placeAt_item with x.
  - simpl toJSON.
    assert (∀ i, fv ∈ (fix each (i : nat) (es : list Value) : list fileVariable :=
                         match es with
                         | [] => []
                         | elem :: rest =>
                             findFilesIn false (key +:+ "." +:+ Itoa i) elem
                             ++ each (S i) rest
                         end) i l →
                 ∃ n x rest, mapKey fv = key +:+ "." +:+ Itoa (i + n) +:+ rest
                   ∧ map toJSON l !! n = Some x ∧ placeAt x rest JNull) as Hl.
    { simpl in Hbare. clear Hin. revert Hbare.
      induction l as [|x l IHl]; intros Hbare i Hin.
      - by apply elem_of_nil in Hin.
      - simpl in Hbare. apply andb_true_iff in Hbare as [Hx Hrest].
        apply elem_of_app in Hin as [Hin|Hin].
        + destruct (IH x false _ fv Hx Hin) as (sfx & Hk & Hp).
          exists 0, (toJSON x), sfx. rewrite Nat.add_0_r.
          split; [by rewrite Hk, ?append_assoc|done].
        + destruct (IHl Hrest (S i) Hin) as (n & y & rest & Hk & Hm & Hp).
          exists (S n), y, rest. rewrite Nat.add_succ_r. done. }
    destruct (Hl 0 Hin) as (n & x & rest & Hk & Hm & Hp).
    exists ("." +:+ Itoa n +:+ rest). split; [by rewrite Hk|].
    by apply placeAt_item with x.
Qed.

End Paths.

(** ** When the packer succeeds *)
Section Readability.
Context `{GoLib} {D : Type}.

(** The effect of a read that returns without error. *)
Lemma ReadAll_ok σ r s σ' :
  ReadAll σ r = Ok (s, None, σ') →
  content σ r = Some s
  ∧ (∀ r', content σ r' = None → content σ' r' = None)
  ∧ (∀ r', is_Some (content σ r') → is_Some (content σ' r')).
Proof.
  destruct r as [|id|unread]; simpl; [done| |].
  - destruct (σ !! id) as [st|] eqn:Hst; [|done]. unfold drain.
    destruct (failure st) eqn:Hf; [done|].
    intros [= <- <-]. split; [done|].
    split; intros [|id'|u]; simpl; try done.
    + destruct (decide (id' = id)) as [->|Hne].
      * by rewrite Hst, Hf.
      * by rewrite lookup_insert_ne.
    + destruct (decide (id' = id)) as [->|Hne].
      * by rewrite lookup_insert_eq.
      * by rewrite lookup_insert_ne.
  - by intros [= <- <-].
Qed.

Lemma ReadAll_readable σ r :
  is_Some (content σ r) → ∃ s σ', ReadAll σ r = Ok (s, None, σ').
Proof.
  intros [s Hs]. destruct r as [|id|unread]; simpl in *; [done| |by eauto].
  destruct (σ !! id) as [st|]; [|done].
  destruct (failure st) eqn:Hf; [done|]. by eauto.
Qed.

Lemma scanGroups_readable gs : ∀ σ file,
  readable σ file →
  Forall (readable σ) (concat gs) →
  Forall (λ g, g ≠ []) gs →
  ∃ σ' file' gs' found,
    scanGroups σ file gs = Ok (σ', file', gs', found)
    ∧ readable σ' file'
    ∧ Forall (readable σ') (concat gs')
    ∧ Forall (λ g, g ≠ []) gs'
    ∧ (∀ r, is_Some (content σ r) → is_Some (content σ' r)).
Proof.
  induction gs as [|g gs IH]; intros σ file Hrf Hrg Hne.
  { exists σ, file, [], false. by repeat split. }
  apply Forall_cons in Hne as [Hg Hne].
  destruct g as [|file2 others]; [done|]. clear Hg.
  simpl in Hrg. apply Forall_cons in Hrg as [Hr2 Hrg].
  apply Forall_app in Hrg as [Hro Hrg].
  assert (∀ σ0 σ1 l, (∀ r, is_Some (content σ0 r) → is_Some (content σ1 r)) →
            Forall (readable σ0) l → Forall (readable σ1) l) as Hmono.
  { intros σ0 σ1 l Hp Hall. eapply Forall_impl; [exact Hall|].
    intros fv. apply Hp. }
  simpl scanGroups.
  destruct (String.eqb (FileName (Graphql.file file)) (FileName (Graphql.file file2))).
  - destruct (ReadAll_readable σ _ Hrf) as (f1 & σ1 & Hread1).
    destruct (ReadAll_ok _ _ _ _ Hread1) as (_ & _ & Hp1).
    destruct (ReadAll_readable σ1 _ (Hp1 _ Hr2)) as (f2 & σ2 & Hread2).
    destruct (ReadAll_ok _ _ _ _ Hread2) as (_ & _ & Hp2).
    rewrite Hread1. simpl. rewrite Hread2. simpl.
    assert (∀ r, is_Some (content σ r) → is_Some (content σ2 r)) as Hp
      by (intros r Hr; by apply Hp2, Hp1).
    destruct (String.eqb f1 f2).
    + eexists σ2, _, _, true. split; [reflexivity|].
      split; [apply readable_bytes|]. split.
      { simpl. apply Forall_cons. split; [apply readable_bytes|].
        rewrite <- (assoc_L (++)). apply Forall_app. split; [by eapply Hmono|].
        apply Forall_cons. split; [apply readable_bytes|by eapply Hmono]. }
      split; [by apply Forall_cons|done].
    + destruct (IH σ2 (setBody file (BytesReader f1)))
        as (σ3 & file' & gs' & found & Hscan & Hr' & Hrg' & Hne' & Hp3);
        [apply readable_bytes|by eapply Hmono|done|].
      rewrite Hscan. simpl. eexists σ3, file', _, found. split; [reflexivity|].
      split; [done|]. split.
      { simpl. apply Forall_cons. split; [apply readable_bytes|].
        apply Forall_app. split; [|done]. eapply Hmono; [|exact Hro].
        intros r Hr. by apply Hp3, Hp. }
      split; [by apply Forall_cons|]. intros r Hr. by apply Hp3, Hp.
  - destruct (IH σ file) as (σ3 & file' & gs' & found & Hscan & Hr' & Hrg' & Hne' & Hp3);
      [done..|].
    rewrite Hscan. simpl. eexists σ3, file', _, found. split; [reflexivity|].
    split; [done|]. split.
    { simpl. apply Forall_cons. split; [by apply Hp3|].
      apply Forall_app. split; [by eapply Hmono|done]. }
    split; [by apply Forall_cons|done].
Qed.

Lemma groupFiles_readable fvs : ∀ σ gs,
  Forall (readable σ) (concat gs ++ fvs) →
  Forall (λ g, g ≠ []) gs →
  ∃ σ' gs',
    groupFiles σ fvs gs = Ok (σ', gs')
    ∧ Forall (readable σ') (concat gs')
    ∧ Forall (λ g, g ≠ []) gs'.
Proof.
  induction fvs as [|file rest IH]; intros σ gs Hr Hne.
  { exists σ, gs. rewrite app_nil_r in Hr. by simpl. }
  apply Forall_app in Hr as [Hrg [Hrf Hrr]%Forall_cons].
  destruct (scanGroups_readable gs σ file Hrf Hrg Hne)
    as (σ1 & file' & gs1 & found & Hscan & Hr' & Hrg' & Hne' & Hp).
  simpl. rewrite Hscan. simpl. apply IH.
  - apply Forall_app. split.
    + destruct found; [done|]. rewrite concat_app. simpl.
      apply Forall_app. split; [done|]. by apply Forall_singleton.
    + eapply Forall_impl; [exact Hrr|]. intros fv. apply Hp.
  - destruct found; [done|]. apply Forall_app. split; [done|].
    by apply Forall_singleton.
Qed.

Lemma writeFiles_readable gs : ∀ σ i,
  Forall (readable σ) (concat gs) →
  Forall (λ g, g ≠ []) gs →
  ∃ parts, writeFiles σ i gs = Ok parts.
Proof.
  induction gs as [|g gs IH]; intros σ i Hr Hne; [by eexists|].
  apply Forall_cons in Hne as [Hg Hne].
  destruct g as [|file0 others]; [done|]. clear Hg.
  simpl in Hr. apply Forall_cons in Hr as [Hr0 Hr].
  apply Forall_app in Hr as [_ Hr].
  destruct (ReadAll_readable σ _ Hr0) as (b & σ' & Hread).
  destruct (ReadAll_ok _ _ _ _ Hread) as (_ & _ & Hp).
  destruct (IH σ' (S i)) as [parts Hparts]; [|done|].
  { eapply Forall_impl; [exact Hr|]. intros fv. apply Hp. }
  simpl. rewrite Hread. simpl. rewrite Hparts. simpl. by eexists.
Qed.

Lemma scanGroups_unreadable gs : ∀ σ file σ' file' gs' found,
  scanGroups σ file gs = Ok (σ', file', gs', found) →
  (∀ r, content σ r = None → content σ' r = None)
  ∧ (unreadable σ file → found = false ∧ unreadable σ' file')
  ∧ (Exists (unreadable σ) (heads gs) → Exists (unreadable σ') (heads gs')).
Proof.
  induction gs as [|g gs IH]; intros σ file σ' file' gs' found; simpl.
  { intros [= <- <- <- <-]. split; [done|]. split; [done|].
    by intros ?%Exists_nil. }
  destruct g as [|file2 others]; [done|].
  destruct (String.eqb (FileName (Graphql.file file)) (FileName (Graphql.file file2))).
  - destruct (ReadAll σ (Body (Graphql.file file))) as [[[f1 err1] σ1]| |] eqn:Hread1;
      simpl; [|done..].
    destruct err1; [done|].
    destruct (ReadAll σ1 (Body (Graphql.file file2))) as [[[f2 err2] σ2]| |] eqn:Hread2;
      simpl; [|done..].
    destruct err2; [done|].
    destruct (ReadAll_ok _ _ _ _ Hread1) as (Hc1 & Hs1 & _).
    destruct (ReadAll_ok _ _ _ _ Hread2) as (Hc2 & Hs2 & _).
    assert (unreadable σ file → False) as Hnf
      by (unfold unreadable; congruence).
    assert (unreadable σ file2 → False) as Hn2.
    { unfold unreadable. intros Hu. apply Hs1 in Hu. congruence. }
    destruct (String.eqb f1 f2).
    + intros [= <- <- <- <-]. split; [by intros r Hr; apply Hs2, Hs1|].
      split; [by intros ?%Hnf|].
      unfold heads. simpl. intros [Hu|Hu]%Exists_cons; [by apply Hn2 in Hu|].
      apply Exists_cons. right. eapply Exists_impl; [exact Hu|].
      intros fv Hu'. by apply Hs2, Hs1.
    + destruct (scanGroups σ2 (setBody file (BytesReader f1)) gs)
        as [[[[σ3 file3] gs3] found3]| |] eqn:Hscan; simpl; [|done..].
      intros [= <- <- <- <-].
      destruct (IH _ _ _ _ _ _ Hscan) as (Hs3 & _ & Hex).
      split; [by intros r Hr; apply Hs3, Hs2, Hs1|].
      split; [by intros ?%Hnf|].
      unfold heads. simpl. intros [Hu|Hu]%Exists_cons; [by apply Hn2 in Hu|].
      apply Exists_cons. right. apply Hex. eapply Exists_impl; [exact Hu|].
      intros fv Hu'. by apply Hs2, Hs1.
  - destruct (scanGroups σ file gs) as [[[[σ3 file3] gs3] found3]| |] eqn:Hscan;
      simpl; [|done..].
    intros [= <- <- <- <-].
    destruct (IH _ _ _ _ _ _ Hscan) as (Hs3 & Hf & Hex).
    split; [done|]. split; [done|].
    unfold heads. simpl. intros [Hu|Hu]%Exists_cons.
    + apply Exists_cons. left. by apply Hs3.
    + apply Exists_cons. right. by apply Hex.
Qed.

Lemma groupFiles_unreadable fvs : ∀ σ gs σ' gs',
  groupFiles σ fvs gs = Ok (σ', gs') →
  Exists (unreadable σ) (heads gs ++ fvs) →
  Exists (unreadable σ') (heads gs').
Proof.
  induction fvs as [|file rest IH]; intros σ gs σ' gs'; simpl.
  { intros [= <- <-]. by rewrite app_nil_r. }
  destruct (scanGroups σ file gs) as [[[[σ1 file1] gs1] found]| |] eqn:Hscan;
    simpl; [|done..].
  destruct (scanGroups_unreadable _ _ _ _ _ _ _ Hscan) as (Hs & Hf & Hex).
  intros Hgroup Hu. apply (IH _ _ _ _ Hgroup).
  apply Exists_app in Hu as [Hu|[Hu|Hu]%Exists_cons]; apply Exists_app.
  - left. apply Hex in Hu. destruct found; [done|].
    unfold heads. rewrite omap_app. apply Exists_app. by left.
  - left. destruct (Hf Hu) as [-> Hu']. unfold heads. rewrite omap_app.
    apply Exists_app. right. simpl. by apply Exists_cons; left.
  - right. eapply Exists_impl; [exact Hu|]. intros fv. apply Hs.
Qed.

Lemma writeFiles_unreadable gs : ∀ σ i,
  Exists (unreadable σ) (heads gs) → is_ok (writeFiles σ i gs) = false.
Proof.
  induction gs as [|g gs IH]; intros σ i; simpl.
  { by intros ?%Exists_nil. }
  destruct g as [|file0 others]; [done|]. unfold heads. simpl.
  intros Hu.
  destruct (ReadAll σ (Body (Graphql.file file0))) as [[[b err] σ']| |] eqn:Hread;
    simpl; [|done..].
  destruct err; [done|].
  destruct (ReadAll_ok _ _ _ _ Hread) as (Hc & Hs & _).
  apply Exists_cons in Hu as [Hu|Hu]; [unfold unreadable in Hu; congruence|].
  assert (is_ok (writeFiles σ' (S i) gs) = false) as Hw.
  { apply IH. eapply Exists_impl; [exact Hu|]. intros fv. apply Hs. }
  by destruct (writeFiles σ' (S i) gs).
Qed.

Lemma readable_dec σ fv : Decision (readable σ fv).
Proof. unfold readable. apply _. Defined.

(** X13.  For variables that are not nil and an endpoint that
    [http.NewRequest] accepts, the upload request is built exactly when
    every collected file has a reader that can be read to its end: a nil
    [Body] or a stream that fails anywhere stops the packing, and nothing
    else does, not even a reader that two files share. *)
Theorem upload_built_iff_files_readable (c : client D) (req : Request)
    (σ : Store) (r0 : HttpRequest) (fvs : list fileVariable) :
  NewRequest MethodPost (RawTarget (endpoint c)) NoBody = Ok r0 →
  findFiles "variables" (ValueOf (Variables req)) = Ok fvs →
  is_ok (createUploadFileRequest c req σ) = true ↔ Forall (readable σ) fvs.
Proof.
  intros Hn Hf. unfold createUploadFileRequest. rewrite Hn, Hf. simpl. split.
  - intros Hok.
    destruct (Forall_Exists_dec (readable σ) (λ fv, ¬ readable σ fv)
                (λ fv, match readable_dec σ fv with
                       | left p => left p
                       | right p => right p
                       end) fvs) as [Hall|Hex]; [done|].
    exfalso.
    assert (Exists (unreadable σ) (heads [] ++ fvs)) as Hu.
    { simpl. eapply Exists_impl; [exact Hex|]. intros fv Hnr.
      unfold unreadable, readable in *.
      destruct (content σ (Body (file fv))); [|done]. by destruct Hnr. }
    destruct (groupFiles σ fvs []) as [[σ' gs]| |] eqn:Hg; simpl in Hok; [|done..].
    pose proof (writeFiles_unreadable gs σ' 0
                  (groupFiles_unreadable _ _ _ _ _ Hg Hu)) as Hw.
    by destruct (writeFiles σ' 0 gs).
  - intros Hall.
    destruct (groupFiles_readable fvs σ []) as (σ' & gs & Hg & Hr & Hne);
      [done|constructor|].
    destruct (writeFiles_readable gs σ' 0 Hr Hne) as [parts Hw].
    by rewrite Hg; simpl; rewrite Hw.
Qed.

End Readability.

(** ** What the parts and the map of an upload request hold *)
Section Parts.
Context `{GoLib} {D : Type}.

Lemma concat_addEntry G e : concat (addEntry G e) ≡ₚ concat G ++ [e].
Proof.
  unfold addEntry. destruct (place e G) as [G' found] eqn:Hp. destruct found.
  - apply place_found in Hp as (G1 & g & G2 & -> & -> & _).
    rewrite !concat_app. simpl. rewrite <- !(assoc_L (++)).
    f_equiv. f_equiv. apply Permutation_app_comm.
  - apply place_not_found in Hp as [-> _]. by rewrite concat_app.
Qed.

Lemma concat_foldl_addEntry es : ∀ G,
  concat (foldl addEntry G es) ≡ₚ concat G ++ es.
Proof.
  induction es as [|e es IH]; intros G; simpl.
  - by rewrite app_nil_r.
  - rewrite IH, concat_addEntry. by rewrite <- (assoc_L (++)).
Qed.

Lemma concat_grouping es : concat (grouping es) ≡ₚ es.
Proof. unfold grouping. by rewrite concat_foldl_addEntry. Qed.

Lemma concat_map_map {A B} (f : A → B) (ls : list (list A)) :
  concat (map (map f) ls) = map f (concat ls).
Proof.
  induction ls as [|l ls IH]; simpl; [done|]. by rewrite IH, map_app.
Qed.

Lemma elem_of_concat {A} (x : A) (ls : list (list A)) :
  x ∈ concat ls ↔ ∃ l, x ∈ l ∧ l ∈ ls.
Proof.
  induction ls as [|l ls IH]; simpl.
  - split; [by intros ?%elem_of_nil|by intros (l & _ & ?%elem_of_nil)].
  - rewrite elem_of_app, IH. split.
    + intros [Hx|(l' & Hx & Hl)]; [exists l; split; [done|left]|].
      exists l'. split; [done|by right].
    + intros (l' & Hx & [->|Hl]%elem_of_cons); [by left|right; by exists l'].
Qed.

Lemma partsOf_length es i :
  length (partsOf i (grouping es)) = length (grouping es).
Proof.
  pose proof (keyed_nonempty _ (grouping_keyed es)) as Hne.
  revert i. induction (grouping es) as [|g G IH]; intros i; [done|].
  apply Forall_cons in Hne as [Hg Hne]. destruct g; [done|].
  simpl. f_equal. by apply IH.
Qed.

(** The groups are as many as the distinct keys of the files. *)
Lemma grouping_length es : length (grouping es) = length (distinctKeys es).
Proof.
  pose proof (grouping_keyed es) as HG. pose proof (concat_grouping es) as Hperm.
  destruct HG as [Hall Hnd].
  rewrite <- (length_fmap headKey (grouping es)).
  rewrite <- (length_fmap Some (distinctKeys es)).
  apply Permutation_length, NoDup_Permutation; [done| |].
  { apply (NoDup_fmap_2 Some), NoDup_remove_dups. }
  intros x. rewrite !list_elem_of_fmap. split.
  - intros (g & -> & Hg).
    apply (proj1 (Forall_forall _ _) Hall) in Hg as Hg'.
    destruct Hg' as (h & t & -> & _). exists (key h). split; [done|].
    unfold distinctKeys. apply (proj2 (elem_of_remove_dups _ _)).
    apply (list_elem_of_fmap_2 key). rewrite <- Hperm.
    apply elem_of_concat. exists (h :: t). split; [left|done].
  - intros (k & -> & Hk). unfold distinctKeys in Hk.
    apply (proj1 (elem_of_remove_dups _ _)) in Hk.
    change (k ∈ key <$> es) in Hk.
    apply list_elem_of_fmap in Hk as (e & -> & He).
    rewrite <- Hperm in He. apply elem_of_concat in He as (g & He & Hg).
    exists g. split; [|done].
    apply list_elem_of_lookup in Hg as [i Hi]. symmetry.
    by apply (keyed_head (grouping es) i g e (grouping_keyed es)).
Qed.

(** X14.  In an upload request whose files are backed by readers that can
    be read and are not shared, the [map] field lists every collected
    path exactly once over all its indices: no upload is left without a
    part, and none is listed twice. *)
Theorem map_lists_every_path_once (c : client D) (req : Request) (σ : Store)
    (r0 : HttpRequest) (fvs : list fileVariable) :
  NewRequest MethodPost (RawTarget (endpoint c)) NoBody = Ok r0 →
  findFiles "variables" (ValueOf (Variables req)) = Ok fvs →
  NoDup (ids fvs) →
  Forall (readable σ) fvs →
  ∃ filesGroup files,
    createUploadFileRequest c req σ =
      Ok (setHeader "Content-Type" FormDataContentType
            (setRequestBody
               (MultipartBody
                  (WriteField "operations" (Marshal_Request req)
                   :: WriteField "map" (mapData filesGroup) :: files))
               r0))
    ∧ length files = length filesGroup
    ∧ concat (map (map mapKey) filesGroup) ≡ₚ map mapKey fvs.
Proof.
  intros Hn Hf Hnd Hr.
  destruct (createUploadFileRequest_refines c req σ r0 fvs Hn Hf Hnd Hr)
    as (filesGroup & Hreq & Hpaths).
  exists filesGroup, (partsOf 0 (grouping (map (entryOf σ) fvs))).
  split; [done|]. split.
  - rewrite partsOf_length.
    rewrite <- (length_map (map path) (grouping _)), <- Hpaths.
    by rewrite length_map.
  - rewrite Hpaths, concat_map_map, concat_grouping.
    by rewrite map_map.
Qed.

(** X15.  In such a request every collected file is carried by the part
    its path is listed under: the group that lists the path has an index
    [k], the part of that index is named [k], and its content is the
    bytes of the file. *)
Theorem every_file_is_carried_by_its_part (c : client D) (req : Request)
    (σ : Store) (r0 : HttpRequest) (fvs : list fileVariable) :
  NewRequest MethodPost (RawTarget (endpoint c)) NoBody = Ok r0 →
  findFiles "variables" (ValueOf (Variables req)) = Ok fvs →
  NoDup (ids fvs) →
  Forall (readable σ) fvs →
  ∃ filesGroup files,
    createUploadFileRequest c req σ =
      Ok (setHeader "Content-Type" FormDataContentType
            (setRequestBody
               (MultipartBody
                  (WriteField "operations" (Marshal_Request req)
                   :: WriteField "map" (mapData filesGroup) :: files))
               r0))
    ∧ ∀ fv, fv ∈ fvs →
        ∃ k g p,
          filesGroup !! k = Some g
          ∧ mapKey fv ∈ map mapKey g
          ∧ files !! k = Some p
          ∧ partName p = Itoa k
          ∧ content σ (Body (file fv)) = Some (partData p).
Proof.
  intros Hn Hf Hnd Hr.
  destruct (createUploadFileRequest_refines c req σ r0 fvs Hn Hf Hnd Hr)
    as (filesGroup & Hreq & Hpaths).
  set (G := grouping (map (entryOf σ) fvs)) in *.
  exists filesGroup, (partsOf 0 G). split; [done|].
  intros fv Hfv.
  destruct (foldl_addEntry (map (entryOf σ) fvs) [] keyed_nil) as (HG & _ & Hin).
  destruct (Hin (entryOf σ fv)) as (k & g & Hk & He).
  { by apply (list_elem_of_fmap_2 (entryOf σ)). }
  fold (grouping (map (entryOf σ) fvs)) in Hk, HG. fold G in Hk, HG.
  pose proof (keyed_head _ _ _ _ HG Hk He) as Hh.
  destruct g as [|h t]; [done|].
  assert (key h = key (entryOf σ fv)) as Hkey
    by (unfold headKey in Hh; simpl in Hh; congruence).
  destruct (partsOf_lookup G 0 k h t (keyed_nonempty _ HG) Hk) as [_ Hpart].
  assert (map (map mapKey) filesGroup !! k = Some (map path (h :: t))) as Hg.
  { rewrite Hpaths. by rewrite list_lookup_fmap, Hk. }
  rewrite list_lookup_fmap in Hg.
  destruct (filesGroup !! k) as [g'|] eqn:Hg'; [|done].
  simpl in Hg. injection Hg as Hg.
  exists k, g', (mkPart (Itoa k)
                   (if String.eqb (TrimSpace (name h)) "" then None
                    else Some (TrimSpace (name h)))
                   (Some (DetectContentType (data h))) (data h)).
  split; [done|]. split.
  { rewrite Hg. by apply (list_elem_of_fmap_2 path) in He. }
  split; [done|]. split; [done|]. simpl.
  assert (data h = data (entryOf σ fv)) as -> by (unfold key in Hkey; congruence).
  apply (proj1 (Forall_forall _ _) Hr) in Hfv as [b Hb].
  unfold entryOf. simpl. by rewrite Hb.
Qed.

(** X16.  In such a request the number of parts is the number of distinct
    pairs of file name and content among the collected files: no file is
    uploaded twice and none is merged with a different one. *)
Theorem parts_count_distinct_files (c : client D) (req : Request)
    (σ : Store) (r0 : HttpRequest) (fvs : list fileVariable) :
  NewRequest MethodPost (RawTarget (endpoint c)) NoBody = Ok r0 →
  findFiles "variables" (ValueOf (Variables req)) = Ok fvs →
  NoDup (ids fvs) →
  Forall (readable σ) fvs →
  ∃ filesGroup files,
    createUploadFileRequest c req σ =
      Ok (setHeader "Content-Type" FormDataContentType
            (setRequestBody
               (MultipartBody
                  (WriteField "operations" (Marshal_Request req)
                   :: WriteField "map" (mapData filesGroup) :: files))
               r0))
    ∧ length files = length (distinctKeys (map (entryOf σ) fvs))
    ∧ length filesGroup = length (distinctKeys (map (entryOf σ) fvs)).
Proof.
  intros Hn Hf Hnd Hr.
  destruct (createUploadFileRequest_refines c req σ r0 fvs Hn Hf Hnd Hr)
    as (filesGroup & Hreq & Hpaths).
  exists filesGroup, (partsOf 0 (grouping (map (entryOf σ) fvs))).
  split; [done|]. rewrite partsOf_length, <- grouping_length. split; [done|].
  by rewrite <- (length_map (map mapKey)), Hpaths, length_map.
Qed.

End Parts.

(** ** Uploads in a list, and uploads behind a shared reader *)
Section Lists.
Context `{GoLib} {D : Type}.

(** X12.  The uploads of a slice or of an array, held directly or behind
    a pointer each, are collected in their order, one per element, and the
    path of each is the parent key followed by a dot and the decimal index
    of the element, counted from zero. *)
Theorem uploads_of_a_list_are_indexed (key : string) (us : list Upload) :
  findFilesIn false key (VSlice (Some (map VUpload us)))
  = imap (λ i u, mkFileVariable (key +:+ "." +:+ Itoa i) u) us
  ∧ findFilesIn false key (VArray (map VUpload us))
    = imap (λ i u, mkFileVariable (key +:+ "." +:+ Itoa i) u) us
  ∧ findFilesIn false key (VSlice (Some (map (λ u, VPtr (Some (VUpload u))) us)))
    = imap (λ i u, mkFileVariable (key +:+ "." +:+ Itoa i) u) us
  ∧ length (findFilesIn false key (VSlice (Some (map VUpload us)))) = length us.
Proof.
  assert (∀ (wrap : Upload → Value),
            (∀ k u, findFilesIn false k (wrap u) = [mkFileVariable k u]) →
            ∀ i,
              (fix each (i : nat) (es : list Value) : list fileVariable :=
                 match es with
                 | [] => []
                 | elem :: rest =>
                     findFilesIn false (key +:+ "." +:+ Itoa i) elem
                     ++ each (S i) rest
                 end) i (map wrap us)
              = imap (λ j u, mkFileVariable (key +:+ "." +:+ Itoa (i + j)) u) us)
    as Heach.
  { intros wrap Hwrap. induction us as [|u us IH]; intros i; [done|].
    simpl. rewrite Hwrap, IH, Nat.add_0_r. simpl. f_equal.
    apply imap_ext. intros j x _. simpl. by rewrite Nat.add_succ_r. }
  assert (Heach0 := λ wrap Hw, Heach wrap Hw 0). simpl in Heach0.
  split; [by apply (Heach0 VUpload)|].
  split; [by apply (Heach0 VUpload)|].
  split; [by apply (Heach0 (λ u, VPtr (Some (VUpload u))))|].
  simpl. rewrite (Heach0 VUpload) by done. by rewrite length_imap.
Qed.

(** X17.  When the two collected files of a request have the same file
    name and hold the same reader of the caller, with content that is not
    empty, the second read of the reader finds it at its end: the files
    are not recognised as duplicates, two parts are written, and the part
    of the first file is empty while the second carries the content. *)
Theorem shared_reader_loses_first_content (c : client D) (req : Request)
    (σ : Store) (r0 : HttpRequest) (path1 path2 fileName : string) (id : nat)
    (blob : string) :
  NewRequest MethodPost (RawTarget (endpoint c)) NoBody = Ok r0 →
  findFiles "variables" (ValueOf (Variables req))
  = Ok [ mkFileVariable path1 (mkUpload fileName (ExtReader id));
         mkFileVariable path2 (mkUpload fileName (ExtReader id)) ] →
  σ !! id = Some (mkReader blob None) →
  blob ≠ "" →
  createUploadFileRequest c req σ =
    Ok (setHeader "Content-Type" FormDataContentType
          (setRequestBody
             (MultipartBody
                [ WriteField "operations" (Marshal_Request req);
                  WriteField "map"
                    (mapData [ [ mkFileVariable path1 (mkUpload fileName (ExtReader id)) ];
                               [ mkFileVariable path2 (mkUpload fileName (ExtReader id)) ] ]);
                  mkPart "0"
                    (if String.eqb (TrimSpace fileName) "" then None
                     else Some (TrimSpace fileName))
                    (Some (DetectContentType "")) "";
                  mkPart "1"
                    (if String.eqb (TrimSpace fileName) "" then None
                     else Some (TrimSpace fileName))
                    (Some (DetectContentType blob)) blob ])
             r0)).
Proof.
  intros Hn Hf Hid Hblob. unfold createUploadFileRequest.
  rewrite Hn, Hf. simpl. rewrite String.eqb_refl, Hid. simpl.
  rewrite lookup_insert_eq. simpl.
  destruct (String.eqb_spec blob "") as [Heq|_]; [done|]. simpl.
  reflexivity.
Qed.

End Lists.

(** ** The serialized request *)
Section Envelope.
Context `{GoLib} `{!Decoder} {D : Type} `{!Doer D}.

Lemma isEmptyValue_blank (v : Value) : isEmptyValue (blank v) = isEmptyValue v.
Proof.
  destruct v as [[e|]|u|fields|[l|]|l|s|z|b|[e|]]; simpl; try done;
    by rewrite length_map.
Qed.

Lemma toJSON_blank : ∀ v : Value, toJSON (blank v) = toJSON v.
Proof.
  fix IH 1.
  intros [[e|]|u|fields|[l|]|l|s|z|b|[e|]]; simpl; try reflexivity.
  - apply IH.
  - f_equal. induction fields as [|[f x] fields IHf]; [reflexivity|].
    rewrite isEmptyValue_blank, IH.
    destruct (String.eqb (Tag f) "-"); [exact IHf|].
    destruct (_ && _); [exact IHf|]. f_equal. exact IHf.
  - f_equal. induction l as [|x l IHl]; [reflexivity|]. simpl.
    rewrite IH. f_equal. exact IHl.
  - f_equal. induction l as [|x l IHl]; [reflexivity|]. simpl.
    rewrite IH. f_equal. exact IHl.
  - apply IH.
Qed.

(** X18.  The serialized request does not depend on the uploads it holds:
    with every upload of the variables replaced by the zero [Upload], the
    text written to the [operations] field, or posted as the body, is the
    same.  The files travel only in their parts. *)
Theorem serialized_request_hides_uploads (req : Request) :
  Marshal_Request
    (mkRequest (Query req) (blank <$> Variables req) (OpName req) (UploadFile req))
  = Marshal_Request req
  ∧ ∀ v, toJSON (blank v) = toJSON v.
Proof.
  split; [|apply toJSON_blank].
  unfold Marshal_Request. f_equal. destruct req as [q [v|] o u]; simpl; [|done].
  by rewrite toJSON_blank.
Qed.

(** X19.  The serialized request is a JSON object that always has the
    keys [query] and [operationName], has the key [variables] exactly
    when the variables are not nil, and also has a key [UploadFile], the Go
    name of the flag, which carries no tag. *)
Theorem serialized_request_members (req : Request) :
  member "query" (toJSON (Request_Value req)) = Some (JStr (Query req))
  ∧ member "operationName" (toJSON (Request_Value req)) = Some (JStr (OpName req))
  ∧ member "variables" (toJSON (Request_Value req)) = toJSON <$> Variables req
  ∧ member "UploadFile" (toJSON (Request_Value req)) = Some (JBool (UploadFile req))
  ∧ ∃ ms, toJSON (Request_Value req) = JObj ms
          ∧ length ms = match Variables req with Some _ => 4 | None => 3 end.
Proof.
  destruct req as [q [v|] o u]; simpl; repeat split; by eexists.
Qed.

(** The fields of [InputWithDefaults] that are serialized. *)
Lemma InputWithDefaults_members (input : InputWithDefaults) :
  toJSON (InputWithDefaults_Value input)
  = JObj ((if String.eqb (Field input) "" then []
           else [ ("field", JStr (Field input)) ])
          ++ (if String.eqb (NullableField input) "" then []
              else [ ("nullableField", JStr (NullableField input)) ])).
Proof.
  destruct input as [f n]. simpl.
  by destruct (String.eqb f ""), (String.eqb n "").
Qed.

(** X20.  On a client made by [NewClient] whose endpoint is accepted,
    [DefaultInputs] hands [Do] one POST request with the JSON content type
    and no context; its body is the object with the operation text, the
    variables [input] holding only the fields that are not empty, the
    operation name and the cleared upload flag. *)
Theorem DefaultInputs_posts_its_envelope (DefaultClient : D) (endpoint : string)
    (httpClient : option D) (input : InputWithDefaults) (σ : Store) :
  http_NewRequest_error MethodPost (RawTarget endpoint) = None →
  sent (DefaultInputs (NewClient DefaultClient endpoint httpClient) input σ)
  = [ mkHttpRequest _ MethodPost (RawTarget endpoint)
        [ ("Content-Type", "application/json") ]
        (BytesBody
           (json_Encode
              (JObj
                 [ ("query", JStr DefaultInputs_Operation);
                   ("variables",
                    JObj [ ("input",
                            JObj ((if String.eqb (Field input) "" then []
                                   else [ ("field", JStr (Field input)) ])
                                  ++ (if String.eqb (NullableField input) "" then []
                                      else [ ("nullableField",
                                              JStr (NullableField input)) ]))) ]);
                   ("operationName", JStr "DefaultInputs");
                   ("UploadFile", JBool false) ])))
        None ].
Proof.
  intros Hn. unfold DefaultInputs, MakeRequest, buildRequest, createPostRequest.
  simpl. unfold NewRequest. rewrite Hn. unfold prepareRequest. simpl.
  assert (Marshal_Request (DefaultInputs_Request input)
          = json_Encode
              (JObj
                 [ ("query", JStr DefaultInputs_Operation);
                   ("variables",
                    JObj [ ("input",
                            JObj ((if String.eqb (Field input) "" then []
                                   else [ ("field", JStr (Field input)) ])
                                  ++ (if String.eqb (NullableField input) "" then []
                                      else [ ("nullableField",
                                              JStr (NullableField input)) ]))) ]);
                   ("operationName", JStr "DefaultInputs");
                   ("UploadFile", JBool false) ])) as ->.
  { unfold Marshal_Request. f_equal.
    rewrite <- InputWithDefaults_members. reflexivity. }
  destruct (Do _ _); [destruct (handleResponse _ _)|..]; done.
Qed.

(** X21.  [DefaultInputs] can be sent by a client made by
    [NewClientUsingGet]: its operation text is not taken for a mutation,
    and when the endpoint parses and the request can be created, [Do]
    receives one GET request without body whose URL carries the operation
    text, the operation name and the JSON text of the variables as
    [query], [operationName] and [variables]. *)
Theorem DefaultInputs_by_get (DefaultClient : D) (endpoint : string)
    (httpClient : option D) (input : InputWithDefaults) (σ : Store)
    (u : URL) :
  url_Parse endpoint = Ok u →
  (∀ q, http_NewRequest_error MethodGet (ParsedTarget u q) = None) →
  sent (DefaultInputs (NewClientUsingGet DefaultClient endpoint httpClient) input σ)
  = [ mkHttpRequest _ MethodGet
        (ParsedTarget u
           (Some (Set_ "variables"
                    (json_Encode
                       (JObj [ ("input", toJSON (InputWithDefaults_Value input)) ]))
                    (Set_ "operationName" "DefaultInputs"
                       (Set_ "query" DefaultInputs_Operation (url_Query u))))))
        [ ("Content-Type", "application/json") ] NoBody None ].
Proof.
  intros Hu Hn. unfold DefaultInputs, MakeRequest, buildRequest, createGetRequest.
  unfold NewClientUsingGet, newClient.
  cbn [Graphql.endpoint Graphql.method Graphql.httpClient].
  change (String.eqb MethodGet MethodGet) with true. cbv iota. rewrite Hu.
  assert (HasPrefix (TrimSpace (Query (DefaultInputs_Request input))) "mutation"
          = false) as -> by (vm_compute; reflexivity).
  rewrite andb_false_r. simpl. unfold NewRequest. rewrite Hn.
  unfold prepareRequest. simpl.
  destruct (Do _ _); [destruct (handleResponse _ _)|..]; done.
Qed.

End Envelope.

(** ** Closed examples for the further properties *)
Section MoreClosed.
Import Reference Examples.

Lemma collected_unshared n0 n1 : NoDup (ids (collected n0 n1)).
Proof. apply (bool_decide_unpack (NoDup [ 0; 1 ])). vm_compute. exact I. Qed.

Lemma collected_readable n0 n1 : Forall (readable twoReaders) (collected n0 n1).
Proof. repeat constructor; exists "hello"; vm_compute; reflexivity. Qed.

(** A plain query posted by a client of [NewClient]. *)
Lemma NewClient_posts_json_witness :
  sent (MakeRequest (NewClient (Err "no network") endpoint0 (Some (okResponse "{}")))
          (Some 7) plainQuery emptyResponse ∅)
  = [ mkHttpRequest _ MethodPost (RawTarget endpoint0)
        [ ("Content-Type", "application/json") ]
        (BytesBody (Marshal_Request plainQuery)) (Some 7) ].
Proof.
  exact (NewClient_posts_json (Err "no network") endpoint0
           (Some (okResponse "{}")) (Some 7) plainQuery emptyResponse ∅ eq_refl).
Defined.

(** Two uploads sent by a POST client. *)
Lemma upload_request_shape_witness :
  ∀ r, r ∈ sent (MakeRequest postClient None (uploadRequest "a.txt" "b.txt")
                   emptyResponse twoReaders) →
    reqMethod r = MethodPost
    ∧ reqTarget r = RawTarget (endpoint postClient)
    ∧ reqHeader r = [ ("Content-Type", FormDataContentType) ]
    ∧ reqContext r = None
    ∧ ∃ mapText files,
        reqBody r = MultipartBody
                      (WriteField "operations"
                         (Marshal_Request (uploadRequest "a.txt" "b.txt"))
                       :: WriteField "map" mapText :: files)
        ∧ ∀ k p, files !! k = Some p →
            partName p = Itoa k
            ∧ partContentType p = Some (DetectContentType (partData p)).
Proof.
  apply (upload_request_shape postClient None (uploadRequest "a.txt" "b.txt")
           emptyResponse twoReaders).
  - intros Heq. vm_compute in Heq. discriminate Heq.
  - reflexivity.
Defined.

(** The request sent is there: the property is not empty. *)
Example upload_is_sent :
  length (sent (MakeRequest postClient None (uploadRequest "a.txt" "b.txt")
                  emptyResponse twoReaders)) = 1.
Proof. vm_compute. reflexivity. Qed.

(** A plain query as a GET request. *)
Lemma get_request_parameters_witness :
  ∃ u,
    url_Parse (endpoint getClient) = Ok u
    ∧ reqMethod gotQuery = method getClient ∧ reqBody gotQuery = NoBody
    ∧ reqContext gotQuery = None
    ∧ (Query plainQuery = "" → OpName plainQuery = "" →
       Variables plainQuery = None → reqTarget gotQuery = ParsedTarget u None)
    ∧ (Query plainQuery ≠ "" ∨ OpName plainQuery ≠ ""
       ∨ Variables plainQuery ≠ None →
       ∃ q, reqTarget gotQuery = ParsedTarget u (Some q)
            ∧ ∀ k, valuesOf k q = parameterOf plainQuery (url_Query u) k).
Proof.
  apply (get_request_parameters getClient plainQuery gotQuery).
  vm_compute. reflexivity.
Defined.

(** The wire value of [Ada] decodes without error. *)
Lemma unmarshal_succeeds_only_on_null_or_variant_witness :
  (adaText = "null" ∧ (__unmarshal Node None adaText).1 = None)
  ∨ ∃ impl,
      impl ∈ Implementations Node
      ∧ UnmarshalTypeName adaText = Ok (implGraphQLName impl)
      ∧ (UnmarshalNew (implGoName impl) adaText).2 = None
      ∧ (__unmarshal Node None adaText).1
        = Some (implGoName impl, (UnmarshalNew (implGoName impl) adaText).1).
Proof.
  apply (unmarshal_succeeds_only_on_null_or_variant Node None adaText).
  vm_compute. reflexivity.
Defined.

(** A number as wire value. *)
Lemma unmarshal_rejects_non_objects_witness :
  ∃ e, __unmarshal Node None "5" = (None, Err (JSONError e)).
Proof.
  exact (unmarshal_rejects_non_objects Node None "5" eq_refl).
Defined.

(** A padded [null] and a text that is no JSON. *)
Example padded_null_and_garbage :
  __unmarshal Node None " null" = (None, Err (MissingDiscriminator "Node"))
  ∧ __unmarshal Node None "{" = (None, Err (JSONError "unexpected end of JSON input")).
Proof. split; vm_compute; reflexivity. Qed.

(** A wire object whose discriminator is a number. *)
Lemma unmarshal_rejects_ill_typed_discriminator_witness :
  ∃ e, __unmarshal Node None numberedText = (None, Err (JSONError e)).
Proof.
  apply (unmarshal_rejects_ill_typed_discriminator Node None numberedText
           numberedMembers).
  - vm_compute. reflexivity.
  - vm_compute. reflexivity.
  - apply Exists_cons. left. split; [vm_compute; reflexivity|exact I].
Defined.

(** The first of two uploads under bare tags. *)
Lemma collected_paths_lead_to_null_witness :
  ∃ suffix,
    "variables.a" = "variables" +:+ suffix
    ∧ placeAt (toJSON (VPtr (Some (VStruct
                 [ (mkField "A" "a", VUpload (mkUpload "a.txt" (ExtReader 0)));
                   (mkField "B" "b", VUpload (mkUpload "b.txt" (ExtReader 1))) ]))))
        suffix JNull.
Proof.
  apply (collected_paths_lead_to_null
           (VPtr (Some (VStruct
              [ (mkField "A" "a", VUpload (mkUpload "a.txt" (ExtReader 0)));
                (mkField "B" "b", VUpload (mkUpload "b.txt" (ExtReader 1))) ])))
           false "variables"
           (mkFileVariable "variables.a" (mkUpload "a.txt" (ExtReader 0)))).
  - reflexivity.
  - apply elem_of_cons. left. reflexivity.
Defined.

(** Two readable uploads. *)
Lemma upload_built_iff_files_readable_witness :
  is_ok (createUploadFileRequest postClient (uploadRequest "a.txt" "b.txt")
           twoReaders) = true
  ↔ Forall (readable twoReaders) (collected "a.txt" "b.txt").
Proof.
  apply (upload_built_iff_files_readable postClient
           (uploadRequest "a.txt" "b.txt") twoReaders emptyPost
           (collected "a.txt" "b.txt")).
  - vm_compute. reflexivity.
  - vm_compute. reflexivity.
Defined.

(** An upload whose stream fails, and one without reader. *)
Example failing_and_nil_readers :
  createUploadFileRequest postClient (uploadRequest "a.txt" "b.txt")
    (<[0 := mkReader "he" (Some "unexpected EOF")]> twoReaders)
  = Err (ReadingFileError "unexpected EOF")
  ∧ is_ok (createUploadFileRequest postClient
             (mkRequest "mutation Up($a: Upload!) { up(a: $a) }"
                (Some (VStruct [ (mkField "A" "a",
                                  VUpload (mkUpload "" NilReader)) ]))
                "Up" true) ∅) = false.
Proof. split; vm_compute; reflexivity. Qed.

Lemma map_lists_every_path_once_witness :
  ∃ filesGroup files,
    createUploadFileRequest postClient (uploadRequest "a.txt" "b.txt") twoReaders =
      Ok (setHeader "Content-Type" FormDataContentType
            (setRequestBody
               (MultipartBody
                  (WriteField "operations"
                     (Marshal_Request (uploadRequest "a.txt" "b.txt"))
                   :: WriteField "map" (mapData filesGroup) :: files))
               emptyPost))
    ∧ length files = length filesGroup
    ∧ concat (map (map mapKey) filesGroup)
      ≡ₚ map mapKey (collected "a.txt" "b.txt").
Proof.
  apply (map_lists_every_path_once postClient (uploadRequest "a.txt" "b.txt")
           twoReaders emptyPost (collected "a.txt" "b.txt")).
  - vm_compute. reflexivity.
  - vm_compute. reflexivity.
  - apply collected_unshared.
  - apply collected_readable.
Defined.

Lemma every_file_is_carried_by_its_part_witness :
  ∃ filesGroup files,
    createUploadFileRequest postClient (uploadRequest "a.txt" "a.txt") twoReaders =
      Ok (setHeader "Content-Type" FormDataContentType
            (setRequestBody
               (MultipartBody
                  (WriteField "operations"
                     (Marshal_Request (uploadRequest "a.txt" "a.txt"))
                   :: WriteField "map" (mapData filesGroup) :: files))
               emptyPost))
    ∧ ∀ fv, fv ∈ collected "a.txt" "a.txt" →
        ∃ k g p,
          filesGroup !! k = Some g
          ∧ mapKey fv ∈ map mapKey g
          ∧ files !! k = Some p
          ∧ partName p = Itoa k
          ∧ content twoReaders (Body (file fv)) = Some (partData p).
Proof.
  apply (every_file_is_carried_by_its_part postClient
           (uploadRequest "a.txt" "a.txt") twoReaders emptyPost
           (collected "a.txt" "a.txt")).
  - vm_compute. reflexivity.
  - vm_compute. reflexivity.
  - apply collected_unshared.
  - apply collected_readable.
Defined.

Lemma parts_count_distinct_files_witness :
  ∃ filesGroup files,
    createUploadFileRequest postClient (uploadRequest "a.txt" "a.txt") twoReaders =
      Ok (setHeader "Content-Type" FormDataContentType
            (setRequestBody
               (MultipartBody
                  (WriteField "operations"
                     (Marshal_Request (uploadRequest "a.txt" "a.txt"))
                   :: WriteField "map" (mapData filesGroup) :: files))
               emptyPost))
    ∧ length files
      = length (distinctKeys (map (entryOf twoReaders) (collected "a.txt" "a.txt")))
    ∧ length filesGroup
      = length (distinctKeys (map (entryOf twoReaders) (collected "a.txt" "a.txt"))).
Proof.
  apply (parts_count_distinct_files postClient (uploadRequest "a.txt" "a.txt")
           twoReaders emptyPost (collected "a.txt" "a.txt")).
  - vm_compute. reflexivity.
  - vm_compute. reflexivity.
  - apply collected_unshared.
  - apply collected_readable.
Defined.

(** Two files with the same bytes: one distinct file under one name, two
    under two names. *)
Example distinct_files_counted :
  length (distinctKeys (map (entryOf twoReaders) (collected "a.txt" "a.txt"))) = 1
  ∧ length (distinctKeys (map (entryOf twoReaders) (collected "a.txt" "b.txt"))) = 2.
Proof. split; vm_compute; reflexivity. Qed.

Lemma shared_reader_loses_first_content_witness :
  createUploadFileRequest postClient sharingRequest twoReaders =
    Ok (setHeader "Content-Type" FormDataContentType
          (setRequestBody
             (MultipartBody
                [ WriteField "operations" (Marshal_Request sharingRequest);
                  WriteField "map"
                    (mapData [ [ mkFileVariable "variables.a"
                                   (mkUpload "a.txt" (ExtReader 0)) ];
                               [ mkFileVariable "variables.b"
                                   (mkUpload "a.txt" (ExtReader 0)) ] ]);
                  mkPart "0"
                    (if String.eqb (TrimSpace "a.txt") "" then None
                     else Some (TrimSpace "a.txt"))
                    (Some (DetectContentType "")) "";
                  mkPart "1"
                    (if String.eqb (TrimSpace "a.txt") "" then None
                     else Some (TrimSpace "a.txt"))
                    (Some (DetectContentType "hello")) "hello" ])
             emptyPost)).
Proof.
  apply (shared_reader_loses_first_content postClient sharingRequest twoReaders
           emptyPost "variables.a" "variables.b" "a.txt" 0 "hello").
  - vm_compute. reflexivity.
  - vm_compute. reflexivity.
  - vm_compute. reflexivity.
  - discriminate.
Defined.

Lemma DefaultInputs_posts_its_envelope_witness :
  sent (DefaultInputs
          (NewClient (Err "no network") endpoint0 (Some (okResponse "{}")))
          someInput ∅)
  = [ mkHttpRequest _ MethodPost (RawTarget endpoint0)
        [ ("Content-Type", "application/json") ]
        (BytesBody
           (json_Encode
              (JObj
                 [ ("query", JStr DefaultInputs_Operation);
                   ("variables",
                    JObj [ ("input", JObj [ ("field", JStr "x") ]) ]);
                   ("operationName", JStr "DefaultInputs");
                   ("UploadFile", JBool false) ])))
        None ].
Proof.
  exact (DefaultInputs_posts_its_envelope (Err "no network") endpoint0
           (Some (okResponse "{}")) someInput ∅ eq_refl).
Defined.

Lemma DefaultInputs_by_get_witness :
  sent (DefaultInputs
          (NewClientUsingGet (Err "no network") endpoint0 (Some (okResponse "{}")))
          someInput ∅)
  = [ mkHttpRequest _ MethodGet
        (ParsedTarget endpoint0
           (Some (Set_ "variables"
                    (json_Encode
                       (JObj [ ("input", toJSON (InputWithDefaults_Value someInput)) ]))
                    (Set_ "operationName" "DefaultInputs"
                       (Set_ "query" DefaultInputs_Operation
                          (@url_Query lib endpoint0))))))
        [ ("Content-Type", "application/json") ] NoBody None ].
Proof.
  apply (@DefaultInputs_by_get lib decoder (outcome string HttpResponse) canned
           (Err "no network") endpoint0 (Some (okResponse "{}")) someInput ∅
           endpoint0).
  - vm_compute. reflexivity.
  - intros q. reflexivity.
Defined.

End MoreClosed.
